(** * audiocraft/models/encodec.py: compression models as audio tokenizers

    A shallow embedding of the backend-independent logic of the module:
    the radix-3 codec that bridges the SQCodec latent and its integer
    codes, the codebook-count policy of every backend, the scale handling
    of [decode], and the stereo interleaving wrapper.

    Python integers are [Z]; tensors carry their shape next to nested
    lists of cells; a method that can raise returns a [result]; a method
    that assigns to [self] returns the updated object.  The neural
    networks and third-party codecs are owned handles (records of
    functions), exactly as the classes hold them in [self.model],
    [self.encoder], [self.scalar_codec], ... *)

From Stdlib Require Import String Ascii DecimalString.
From Stdlib Require Import ZArith QArith Arith Bool Lia List.
Import ListNotations.

Local Open Scope Z_scope.

(** ** Exceptions and the error monad *)

Inductive error : Type :=
| AssertionError (msg : string)
| ValueError (msg : string)
| NotImplementedError (msg : string)
| NameError (name : string)
| TypeError (msg : string)
| RuntimeError (msg : string)
| IndexError (msg : string)
| EinopsError (msg : string)
| InvalidDigit (d : Z)
| OutOfRange (code : Z).

Inductive result (A : Type) : Type :=
| Ok (a : A)
| Err (e : error).

Arguments Ok {A} a.
Arguments Err {A} e.

Definition bind {A B : Type} (r : result A) (k : A -> result B) : result B :=
  match r with
  | Ok a => k a
  | Err e => Err e
  end.

Declare Scope result_scope.
Delimit Scope result_scope with result.
Notation "x <- c ;; k" := (bind c (fun x => k))
  (at level 61, c at next level, right associativity) : result_scope.
Notation "' p <- c ;; k" := (bind c (fun x => let p := x in k))
  (at level 61, p pattern, c at next level, right associativity) : result_scope.
Notation "c ;;; k" := (bind c (fun _ => k))
  (at level 61, right associativity) : result_scope.
Local Open Scope result_scope.

(** [assert cond, msg] *)
Definition assert (cond : bool) (msg : string) : result unit :=
  if cond then Ok tt else Err (AssertionError msg).

Definition is_ok {A : Type} (r : result A) : bool :=
  match r with Ok _ => true | Err _ => false end.

Definition raises {A : Type} (r : result A) : Prop :=
  exists e, r = Err e.

(** [for x in xs: ys.append(f(x))], stopping at the first exception. *)
Fixpoint mapM {A B : Type} (f : A -> result B) (xs : list A) : result (list B) :=
  match xs with
  | [] => Ok []
  | x :: xs' => y <- f x ;; ys <- mapM f xs' ;; Ok (y :: ys)
  end.

(** [str(n)] for the f-strings of the module. *)
Definition str_nat (n : nat) : string := NilZero.string_of_uint (Nat.to_uint n).
Definition str_int (z : Z) : string := NilZero.string_of_int (Z.to_int z).

(** [str(l)] of a list of integers: [[2, 4, 8]]. *)
Fixpoint join_comma (l : list string) : string :=
  match l with
  | [] => EmptyString
  | [s] => s
  | s :: l' => (s ++ ", " ++ join_comma l')%string
  end.

Definition str_int_list (l : list Z) : string :=
  ("[" ++ join_comma (map str_int l) ++ "]")%string.

(** ** Tensors

    A tensor of rank 2 or 3 is its shape together with its cells, outermost
    axis first.  The shape is kept explicitly because [codes.shape] is read
    by the code also when an axis is empty. *)

Record Tensor2 (A : Type) : Type := mkT2 {
  rows2 : nat;
  cols2 : nat;
  cells2 : list (list A)
}.

Record Tensor3 (A : Type) : Type := mkT3 {
  dimB : nat;
  dimK : nat;
  dimT : nat;
  cells : list (list (list A))
}.

Arguments mkT2 {A} _ _ _.
Arguments rows2 {A} _.
Arguments cols2 {A} _.
Arguments cells2 {A} _.
Arguments mkT3 {A} _ _ _ _.
Arguments dimB {A} _.
Arguments dimK {A} _.
Arguments dimT {A} _.
Arguments cells {A} _.

Definition matrix_shape {A : Type} (r c : nat) (m : list (list A)) : Prop :=
  length m = r /\ Forall (fun row => length row = c) m.

(** The cells of a tensor agree with its shape. *)
Definition wf2 {A : Type} (x : Tensor2 A) : Prop :=
  matrix_shape (rows2 x) (cols2 x) (cells2 x).

Definition wf3 {A : Type} (x : Tensor3 A) : Prop :=
  length (cells x) = dimB x /\
  Forall (matrix_shape (dimK x) (dimT x)) (cells x).

Definition shape3 {A : Type} (x : Tensor3 A) : nat * nat * nat :=
  (dimB x, dimK x, dimT x).

Definition same_shape3 {A B : Type} (x : Tensor3 A) (y : Tensor3 B) : bool :=
  (dimB x =? dimB y)%nat && (dimK x =? dimK y)%nat && (dimT x =? dimT y)%nat.

(** [x[b, k]] and [x[b, k, t]], [None] out of range. *)
Definition row_at {A : Type} (x : Tensor3 A) (b k : nat) : option (list A) :=
  match nth_error (cells x) b with
  | Some item => nth_error item k
  | None => None
  end.

Definition cell_at {A : Type} (x : Tensor3 A) (b k t : nat) : option A :=
  match row_at x b k with
  | Some row => nth_error row t
  | None => None
  end.

Definition map3 {A B : Type} (f : A -> B) (x : Tensor3 A) : Tensor3 B :=
  mkT3 (dimB x) (dimK x) (dimT x) (map (map (map f)) (cells x)).

(** ** RadixCodec: [audiocraft/models/utils.py] *)

Module RadixCodec.

Definition valid_digit (d : Z) : bool := (0 <=? d) && (d <=? 2).

Fixpoint pack_from (acc : Z) (v : list Z) : result Z :=
  match v with
  | [] => Ok acc
  | d :: v' =>
      if valid_digit d then pack_from (3 * acc + d) v'
      else Err (InvalidDigit d)
  end.

(** Modelled from the spec: [ternary_matrix_to_decimal] lives in
    [audiocraft/models/utils.py], which is not part of the sources at
    hand.  Section 4.1: the digit sequence is a base-3 positional number,
    most-significant digit first; every digit is validated to lie in
    [{0,1,2}], a violation being an [InvalidDigit] error. *)
Definition pack (v : list Z) : result Z := pack_from 0 v.

(** The loop of the unpacking: take [code mod 3], divide by 3, until the
    code is exhausted; digits come out least-significant first. *)
Fixpoint lsd_digits (fuel : nat) (code : Z) : list Z :=
  match fuel with
  | O => []
  | S fuel' =>
      if code =? 0 then []
      else (code mod 3) :: lsd_digits fuel' (code / 3)
  end.

(** Modelled from the spec: [decimal_to_ternary_matrix] lives in
    [audiocraft/models/utils.py], which is not part of the sources at
    hand.  Section 4.1: a code outside [[0, 3^D)] is an [OutOfRange]
    error; otherwise the digits are produced least-significant first,
    reversed, and left-padded with zeros to exactly [D] digits. *)
Definition unpack (code : Z) (D : nat) : result (list Z) :=
  if (code <? 0) || (3 ^ Z.of_nat D <=? code) then Err (OutOfRange code)
  else
    let ds := lsd_digits D code in
    Ok (repeat 0 (D - length ds) ++ rev ds).

(** The value of a digit sequence given least-significant digit first. *)
Fixpoint value_lsf (w : list Z) : Z :=
  match w with
  | [] => 0
  | d :: w' => d + 3 * value_lsf w'
  end.

(** A valid digit group: every digit in [{0,1,2}]. *)
Definition digits_ok (v : list Z) : Prop := Forall (fun d => 0 <= d <= 2) v.

End RadixCodec.

(** ** Tensor operations used by the module *)

Definition zip_with {A B C : Type} (f : A -> B -> C) (l : list A) (r : list B) : list C :=
  map (fun p => f (fst p) (snd p)) (combine l r).

(** Python's [l[:n]]: a negative bound counts from the end. *)
Definition slice_upto {A : Type} (n : Z) (l : list A) : list A :=
  if 0 <=? n then firstn (Z.to_nat n) l
  else firstn (length l - Z.to_nat (- n)) l.

(** [x[:, :n]] *)
Definition narrow_codebooks {A : Type} (x : Tensor3 A) (n : Z) : Tensor3 A :=
  mkT3 (dimB x) (length (slice_upto n (seq 0 (dimK x)))) (dimT x)
       (map (slice_upto n) (cells x)).

(** [x[:, c, ...].unsqueeze(1)]; the callers have checked [c] against the
    channel axis. *)
Definition select_channel {A : Type} (x : Tensor3 A) (c : nat) : Tensor3 A :=
  mkT3 (dimB x) 1 (dimT x) (map (fun item => [nth c item []]) (cells x)).

(** [x[:, i, :]] *)
Definition select_codebook {A : Type} (x : Tensor3 A) (i : nat) : result (Tensor2 A) :=
  if (i <? dimK x)%nat
  then Ok (mkT2 (dimB x) (dimT x) (map (fun item => nth i item []) (cells x)))
  else Err (IndexError "index out of range").

(** [x[i, ...]] *)
Definition select_first {A : Type} (x : Tensor3 A) (i : nat) : result (Tensor2 A) :=
  if (i <? dimB x)%nat
  then Ok (mkT2 (dimK x) (dimT x) (nth i (cells x) []))
  else Err (IndexError "index out of range").

(** [torch.cat([a, b], dim=1)] *)
Definition cat_pair {A : Type} (a b : Tensor3 A) : result (Tensor3 A) :=
  if (dimB a =? dimB b)%nat && (dimT a =? dimT b)%nat
  then Ok (mkT3 (dimB a) (dimK a + dimK b) (dimT a)
                (zip_with (@app (list A)) (cells a) (cells b)))
  else Err (RuntimeError "Sizes of tensors must match except in dimension 1").

(** [torch.cat(xs, dim=1)] *)
Definition cat_codebooks {A : Type} (xs : list (Tensor3 A)) : result (Tensor3 A) :=
  match xs with
  | [] => Err (RuntimeError "torch.cat(): expected a non-empty list of Tensors")
  | x :: xs' => fold_left (fun acc y => a <- acc ;; cat_pair a y) xs' (Ok x)
  end.

(** [x.chunk(n, dim=1)]: pieces of [ceil(K / n)] codebooks, the last one
    possibly shorter; an empty axis still gives [n] (empty) pieces. *)
Definition chunk_piece {A : Type} (size j : nat) (x : Tensor3 A) : Tensor3 A :=
  mkT3 (dimB x) (Nat.min size (dimK x - j * size)) (dimT x)
       (map (fun item => firstn size (skipn (j * size) item)) (cells x)).

Definition chunk {A : Type} (x : Tensor3 A) (n : Z) : result (list (Tensor3 A)) :=
  if n <=? 0 then Err (RuntimeError "chunk expects `chunks` to be greater than 0")
  else
    let n' := Z.to_nat n in
    let size := ((dimK x + n' - 1) / n')%nat in
    let count := if (dimK x =? 0)%nat then n'
                 else ((dimK x + size - 1) / size)%nat in
    Ok (map (fun j => chunk_piece size j x) (seq 0 count)).

(** [torch.stack(ms, dim=1)] of matrices [[B, T]] into [[B, len(ms), T]]. *)
Definition same_shape2 {A : Type} (x y : Tensor2 A) : bool :=
  (rows2 x =? rows2 y)%nat && (cols2 x =? cols2 y)%nat.

Definition stack_codebooks {A : Type} (ms : list (Tensor2 A)) : result (Tensor3 A) :=
  match ms with
  | [] => Err (RuntimeError "stack expects a non-empty TensorList")
  | m :: _ =>
      if forallb (same_shape2 m) ms
      then Ok (mkT3 (rows2 m) (length ms) (cols2 m)
                    (map (fun b => map (fun mi => nth b (cells2 mi) []) ms)
                         (seq 0 (rows2 m))))
      else Err (RuntimeError "stack expects each tensor to be equal size")
  end.

(** [x.permute(2, 0, 1)] *)
Definition permute_201 {A : Type} (dflt : A) (x : Tensor3 A) : Tensor3 A :=
  mkT3 (dimT x) (dimB x) (dimK x)
       (map (fun t => map (fun item => map (fun row => nth t row dflt) item) (cells x))
            (seq 0 (dimT x))).

(** ** The two matrix functions of [audiocraft/models/utils.py] *)

(** [m[:, t]], with 0 where a row is too short. *)
Definition column (t : nat) (m : list (list Z)) : list Z :=
  map (fun row => nth t row 0) m.


(** Modelled from the spec: the function is defined in
    [audiocraft/models/utils.py], absent from the sources at hand.  Section
    4.1: packing operates per independent group along the batch and time
    axes; the group at [(b, t)] of a chunk [[B, D, T]] is the column
    [chunk[b, :, t]], first row most significant. *)
Definition ternary_matrix_to_decimal (chunk : Tensor3 Z) : result (Tensor2 Z) :=
  rows <- mapM (fun item =>
                  mapM (fun t => RadixCodec.pack (column t item))
                       (seq 0 (dimT chunk)))
               (cells chunk) ;;
  Ok (mkT2 (dimB chunk) (dimT chunk) rows).

(** Modelled from the spec: the function is defined in
    [audiocraft/models/utils.py], absent from the sources at hand.  Section
    4.1: every code of the matrix [[B, T]] is unpacked on its own into [D]
    digits, laid out along a new middle axis: [[B, D, T]]. *)
Definition decimal_to_ternary_matrix (codes : Tensor2 Z) (D : nat) : result (Tensor3 Z) :=
  items <- mapM (fun row =>
                   groups <- mapM (fun c => RadixCodec.unpack c D) row ;;
                   Ok (map (fun d => column d groups) (seq 0 D)))
                (cells2 codes) ;;
  Ok (mkT3 (rows2 codes) D (cols2 codes) items).


(** ** Floating-point samples

    Audio samples, latents and scales are floating-point numbers.  Nothing
    proved here depends on their arithmetic, which stays abstract: a
    carrier with the casts and the three operations the module applies
    to them. *)

Class Sample (R : Type) : Type := {
  float_of_int : Z -> R;                (* [.float()] *)
  int_of_float : R -> Z;                (* [.astype(np.int32)], [.to(torch.int64)] *)
  fmul : R -> R -> R;
  fdiv : R -> R -> R;
  (** [1e-8 + sqrt(mean_t(mean_c(x)^2))] of one batch item [[C, T]] *)
  volume_scale : list (list R) -> R
}.

Definition wrap_signed (bits : Z) (z : Z) : Z :=
  (z + 2 ^ (bits - 1)) mod 2 ^ bits - 2 ^ (bits - 1).

(** ** The interface every compression model implements *)

Module CompressionModel.

(** [R] is the sample type, [S] the type of the scale the model returns
    and accepts, [M] the model object.  [forward] is left out: no claim
    involves training. *)
Class API (R S M : Type) : Type := {
  encode : M -> Tensor3 R -> result (Tensor3 Z * option S);
  decode : M -> Tensor3 Z -> option S -> result (Tensor3 R);
  decode_latent : M -> Tensor3 Z -> result (Tensor3 R);
  channels : M -> Z;
  frame_rate : M -> Q;
  sample_rate : M -> Z;
  cardinality : M -> Z;
  num_codebooks : M -> Z;
  total_codebooks : M -> Z;
  set_num_codebooks : M -> Z -> result M
}.

End CompressionModel.

(** ** [qt.BaseQuantizer]: the quantizer an [EncodecModel] owns

    [audiocraft/quantization] is not part of the sources at hand; the
    quantizer is an object with these methods and nothing more is assumed
    of it. *)

Module BaseQuantizer.

Class API (R Qz : Type) : Type := {
  total_codebooks : Qz -> Z;
  num_codebooks : Qz -> Z;
  bins : Qz -> Z;
  encode : Qz -> Tensor3 R -> result (Tensor3 Z);
  decode : Qz -> Tensor3 Z -> result (Tensor3 R);
  set_num_codebooks : Qz -> Z -> result Qz
}.

End BaseQuantizer.

(** ** [class EncodecModel(CompressionModel)] *)

Module EncodecModel.

Record t (R Qz : Type) : Type := mk {
  encoder : Tensor3 R -> result (Tensor3 R);
  decoder : Tensor3 R -> result (Tensor3 R);
  quantizer : Qz;
  frame_rate : Z;
  sample_rate : Z;
  channels : Z;
  renormalize : bool;
  causal : bool
}.

Arguments mk {R Qz} _ _ _ _ _ _ _ _.
Arguments encoder {R Qz} _.
Arguments decoder {R Qz} _.
Arguments quantizer {R Qz} _.
Arguments frame_rate {R Qz} _.
Arguments sample_rate {R Qz} _.
Arguments channels {R Qz} _.
Arguments renormalize {R Qz} _.
Arguments causal {R Qz} _.

Section Methods.
Context {R : Type} `{Sample R} {Qz : Type} `{BaseQuantizer.API R Qz}.

Definition init (encoder decoder : Tensor3 R -> result (Tensor3 R))
    (quantizer : Qz) (frame_rate sample_rate channels : Z)
    (causal renormalize : bool) : result (t R Qz) :=
  (if causal
   then assert (negb renormalize) "Causal model does not support renormalize"
   else Ok tt) ;;;
  Ok (mk encoder decoder quantizer frame_rate sample_rate channels
         renormalize causal).

Definition total_codebooks (self : t R Qz) : Z :=
  BaseQuantizer.total_codebooks (quantizer self).

Definition num_codebooks (self : t R Qz) : Z :=
  BaseQuantizer.num_codebooks (quantizer self).

Definition set_num_codebooks (self : t R Qz) (n : Z) : result (t R Qz) :=
  q <- BaseQuantizer.set_num_codebooks (quantizer self) n ;;
  Ok (mk (encoder self) (decoder self) q (frame_rate self)
         (sample_rate self) (channels self) (renormalize self) (causal self)).

Definition cardinality (self : t R Qz) : Z :=
  BaseQuantizer.bins (quantizer self).

Definition scale_items (f : R -> R -> R) (items : list (list (list R)))
    (scales : list R) : list (list (list R)) :=
  zip_with (fun item s => map (map (fun v => f v s)) item) items scales.

Definition preprocess (self : t R Qz) (x : Tensor3 R)
    : Tensor3 R * option (Tensor2 R) :=
  if renormalize self then
    let scale := map volume_scale (cells x) in
    (mkT3 (dimB x) (dimK x) (dimT x) (scale_items fdiv (cells x) scale),
     Some (mkT2 (dimB x) 1 (map (fun s => [s]) scale)))
  else (x, None).

(** [x * scale.view(-1, 1, 1)], with the broadcasting of the batch
    axis written out. *)
Definition mul_scale (x : Tensor3 R) (scale : Tensor2 R) : result (Tensor3 R) :=
  let vals := concat (cells2 scale) in
  if (length vals =? dimB x)%nat then
    Ok (mkT3 (dimB x) (dimK x) (dimT x) (scale_items fmul (cells x) vals))
  else
    match vals, cells x with
    | [s], _ => Ok (map3 (fun v => fmul v s) x)
    | _, [item] =>
        Ok (mkT3 (length vals) (dimK x) (dimT x)
                 (map (fun s => map (map (fun v => fmul v s)) item) vals))
    | _, _ =>
        Err (RuntimeError "The size of tensor a must match the size of tensor b")
    end.

Definition postprocess (self : t R Qz) (x : Tensor3 R)
    (scale : option (Tensor2 R)) : result (Tensor3 R) :=
  match scale with
  | Some s =>
      assert (renormalize self) "" ;;;
      mul_scale x s
  | None => Ok x
  end.

Definition encode (self : t R Qz) (x : Tensor3 R)
    : result (Tensor3 Z * option (Tensor2 R)) :=
  let '(x, scale) := preprocess self x in
  emb <- encoder self x ;;
  codes <- BaseQuantizer.encode (quantizer self) emb ;;
  Ok (codes, scale).

Definition decode_latent (self : t R Qz) (codes : Tensor3 Z) : result (Tensor3 R) :=
  BaseQuantizer.decode (quantizer self) codes.

Definition decode (self : t R Qz) (codes : Tensor3 Z)
    (scale : option (Tensor2 R)) : result (Tensor3 R) :=
  emb <- decode_latent self codes ;;
  out <- decoder self emb ;;
  out <- postprocess self out scale ;;
  Ok out.

#[global] Instance compression_model : CompressionModel.API R (Tensor2 R) (t R Qz) := {|
  CompressionModel.encode := encode;
  CompressionModel.decode := decode;
  CompressionModel.decode_latent := decode_latent;
  CompressionModel.channels := channels;
  CompressionModel.frame_rate := fun self => inject_Z (frame_rate self);
  CompressionModel.sample_rate := sample_rate;
  CompressionModel.cardinality := cardinality;
  CompressionModel.num_codebooks := num_codebooks;
  CompressionModel.total_codebooks := total_codebooks;
  CompressionModel.set_num_codebooks := set_num_codebooks
|}.

End Methods.

End EncodecModel.

(** ** [class DAC(CompressionModel)] *)

(** The handle [dac.utils.load_model] returns.  [dac_encode x n] is
    [model.encode(x, n)[1]], [dac_from_codes c] is
    [model.quantizer.from_codes(c)[0]]. *)
Record DacModel (R : Type) : Type := mkDacModel {
  dac_sample_rate : Z;
  dac_hop_length : positive;
  dac_codebook_size : Z;
  dac_n_codebooks : Z;
  dac_encode : Tensor3 R -> Z -> result (Tensor3 Z);
  dac_from_codes : Tensor3 Z -> result (Tensor3 R);
  dac_decode : Tensor3 R -> result (Tensor3 R)
}.

Arguments mkDacModel {R} _ _ _ _ _ _ _.
Arguments dac_sample_rate {R} _.
Arguments dac_hop_length {R} _.
Arguments dac_codebook_size {R} _.
Arguments dac_n_codebooks {R} _.
Arguments dac_encode {R} _ _ _.
Arguments dac_from_codes {R} _ _.
Arguments dac_decode {R} _ _.

Module DAC.

Record t (R : Type) : Type := mk {
  model : DacModel R;
  n_quantizers : Z
}.

Arguments mk {R} _ _.
Arguments model {R} _.
Arguments n_quantizers {R} _.

Section Methods.
Context {R : Type}.

Definition total_codebooks (self : t R) : Z := dac_n_codebooks (model self).

Definition init (model : DacModel R) : t R :=
  mk model (dac_n_codebooks model).

Definition encode (self : t R) (x : Tensor3 R)
    : result (Tensor3 Z * option (Tensor2 R)) :=
  codes <- dac_encode (model self) x (n_quantizers self) ;;
  Ok (narrow_codebooks codes (n_quantizers self), None).

Definition decode_latent (self : t R) (codes : Tensor3 Z) : result (Tensor3 R) :=
  dac_from_codes (model self) codes.

Definition decode (self : t R) (codes : Tensor3 Z)
    (scale : option (Tensor2 R)) : result (Tensor3 R) :=
  assert (match scale with None => true | Some _ => false end) "" ;;;
  z_q <- decode_latent self codes ;;
  dac_decode (model self) z_q.

Definition channels (self : t R) : Z := 1.

Definition frame_rate (self : t R) : Q :=
  (inject_Z (dac_sample_rate (model self))
   / inject_Z (Zpos (dac_hop_length (model self))))%Q.

Definition sample_rate (self : t R) : Z := dac_sample_rate (model self).

Definition cardinality (self : t R) : Z := dac_codebook_size (model self).

Definition num_codebooks (self : t R) : Z := n_quantizers self.

Definition set_num_codebooks (self : t R) (n : Z) : result (t R) :=
  assert (1 <=? n) "" ;;;
  assert (n <=? total_codebooks self) "" ;;;
  Ok (mk (model self) n).

#[global] Instance compression_model : CompressionModel.API R (Tensor2 R) (t R) := {|
  CompressionModel.encode := encode;
  CompressionModel.decode := decode;
  CompressionModel.decode_latent := decode_latent;
  CompressionModel.channels := channels;
  CompressionModel.frame_rate := frame_rate;
  CompressionModel.sample_rate := sample_rate;
  CompressionModel.cardinality := cardinality;
  CompressionModel.num_codebooks := num_codebooks;
  CompressionModel.total_codebooks := total_codebooks;
  CompressionModel.set_num_codebooks := set_num_codebooks
|}.

End Methods.

End DAC.

(** ** Rank-4 tensors, for [SQCodec.encode_embedding] *)

Record Tensor4 (A : Type) : Type := mkT4 {
  dim4_0 : nat;
  dim4_1 : nat;
  dim4_2 : nat;
  dim4_3 : nat;
  cells4 : list (list (list (list A)))
}.

Arguments mkT4 {A} _ _ _ _ _.
Arguments dim4_0 {A} _.
Arguments dim4_1 {A} _.
Arguments dim4_2 {A} _.
Arguments dim4_3 {A} _.
Arguments cells4 {A} _.

(** [torch.stack(xs, dim=0)] *)
Definition stack_first {A : Type} (xs : list (Tensor3 A)) : result (Tensor4 A) :=
  match xs with
  | [] => Err (RuntimeError "stack expects a non-empty TensorList")
  | x :: _ =>
      if forallb (same_shape3 x) xs
      then Ok (mkT4 (length xs) (dimB x) (dimK x) (dimT x) (map cells xs))
      else Err (RuntimeError "stack expects each tensor to be equal size")
  end.

(** [x.permute(1, 3, 0, 2)] *)
Definition permute_1302 {A : Type} (dflt : A) (x : Tensor4 A) : Tensor4 A :=
  mkT4 (dim4_1 x) (dim4_3 x) (dim4_0 x) (dim4_2 x)
       (map (fun b =>
               map (fun t =>
                      map (fun xk => map (fun row => nth t row dflt) (nth b xk []))
                          (cells4 x))
                   (seq 0 (dim4_3 x)))
            (seq 0 (dim4_1 x))).

(** [range(n)] *)
Definition range (n : Z) : list nat := seq 0 (Z.to_nat n).

(** ** Name resolution

    A name read inside a function is looked up among the function's local
    variables, then among the globals of the module.  Only tensors can be
    indexed, so a scope records for each bound name the tensor it holds, or
    [None] for any other object. *)

Definition Scope : Type := list (string * option (Tensor3 Z)).

Definition bound (names : list string) : Scope := map (fun n => (n, None)) names.

(** The names bound at the top level of [encodec.py], imports included,
    with those of its [__main__] block. *)
Definition module_globals : Scope :=
  bound ["sys"; "ABC"; "abstractmethod"; "os"; "logging"; "math"; "Path"; "tp";
         "rearrange"; "np"; "torch"; "nn"; "HFEncodecModel"; "qt"; "checkpoint";
         "ScalarModel"; "decimal_to_ternary_matrix"; "ternary_matrix_to_decimal";
         "logger"; "CompressionModel"; "EncodecModel"; "DAC"; "SQCodec";
         "WavTokenizer"; "HFEncodecCompressionModel";
         "InterleaveStereoCompressionModel";
         "torchaudio"; "plt"; "sqcodec"; "x"; "sr"; "q"; "_"; "y"]%string.

Definition load_name (locals : Scope) (name : string) : result (Tensor3 Z) :=
  match find (fun p => String.eqb (fst p) name) (locals ++ module_globals) with
  | Some (_, Some x) => Ok x
  | Some (_, None) => Err (TypeError "object is not subscriptable")
  | None => Err (NameError name)
  end.

(** ** [class SQCodec(CompressionModel)] *)

(** [ScalarModel], from [audiocraft/models/scalarmodel.py]. *)
Record ScalarModel (R : Type) : Type := mkScalarModel {
  sm_encode : Tensor3 R -> result (Tensor3 R);
  sm_decode : Tensor3 R -> result (Tensor3 R)
}.

Arguments mkScalarModel {R} _ _.
Arguments sm_encode {R} _ _.
Arguments sm_decode {R} _ _.

(** [torch.nn.Linear], applied along the last axis. *)
Record Linear (R : Type) : Type := mkLinear {
  in_features : Z;
  out_features : Z;
  linear_apply : list R -> result (list R)
}.

Arguments mkLinear {R} _ _ _.
Arguments in_features {R} _.
Arguments out_features {R} _.
Arguments linear_apply {R} _ _.

Definition apply_linear {R : Type} (l : Linear R) (x : Tensor4 R) : result (Tensor4 R) :=
  c <- mapM (mapM (mapM (linear_apply l))) (cells4 x) ;;
  Ok (mkT4 (dim4_0 x) (dim4_1 x) (dim4_2 x) (Z.to_nat (out_features l)) c).

Module SQCodec.

Record t (R : Type) : Type := mk {
  scalar_codec : ScalarModel R;
  sample_rate : Z;
  dim_codebook : Z;
  n_codebook : Z;
  bw : Z;
  mask_id : Z;
  emb_dim : Z;
  proj_layer : option (Linear R);
  use_ternary : bool
}.

Arguments mk {R} _ _ _ _ _ _ _ _ _.
Arguments scalar_codec {R} _.
Arguments sample_rate {R} _.
Arguments dim_codebook {R} _.
Arguments n_codebook {R} _.
Arguments bw {R} _.
Arguments mask_id {R} _.
Arguments emb_dim {R} _.
Arguments proj_layer {R} _.
Arguments use_ternary {R} _.

Section Methods.
Context {R : Type} `{Sample R}.

(** [__init__]; [scalar_codec] is the codec [build_codec_model] loads
    from the checkpoint, [new_linear] is [torch.nn.Linear]. *)
Definition init (scalar_codec : ScalarModel R) (new_linear : Z -> Z -> Linear R)
    (sample_rate dim_codebook n_codebook bw emb_dim clip_length : Z)
    (hidden_dim : option Z) (use_ternary : bool) : t R :=
  mk scalar_codec sample_rate dim_codebook n_codebook bw
     (dim_codebook * n_codebook) emb_dim
     (match hidden_dim with
      | Some h => if negb (h =? emb_dim) then Some (new_linear emb_dim h) else None
      | None => None
      end)
     use_ternary.

(** [SQCodec()] with the default arguments of [__init__]. *)
Definition default (scalar_codec : ScalarModel R) (new_linear : Z -> Z -> Linear R)
    : t R :=
  init scalar_codec new_linear 16000 19683 4 2 9 450 None false.

Definition total_codebooks (self : t R) : Z := n_codebook self.

Definition num_codebooks (self : t R) : Z := n_codebook self.

Definition set_num_codebooks (self : t R) (n : Z) : result (t R) :=
  assert (1 <=? n) "" ;;;
  Ok (mk (scalar_codec self) (sample_rate self) (dim_codebook self) n
         (bw self) (mask_id self) (emb_dim self) (proj_layer self)
         (use_ternary self)).

Definition cardinality (self : t R) : Z := dim_codebook self.

Definition set_cardinality (self : t R) (n : Z) : result (t R) :=
  assert (1 <=? n) "" ;;;
  Ok (mk (scalar_codec self) (sample_rate self) n (n_codebook self)
         (bw self) (mask_id self) (emb_dim self) (proj_layer self)
         (use_ternary self)).

Definition channels (self : t R) : Z := 1.

Definition frame_rate (self : t R) : Z := 50.

(** The quantization step of [encode], from the latent on. *)
Definition encode_latent (self : t R) (compressed : Tensor3 R) : result (Tensor3 Z) :=
  if use_ternary self then
    Ok (map3 (fun v => wrap_signed 64 (int_of_float v + 1)) compressed)
  else
    chunks <- chunk compressed (n_codebook self) ;;
    codec_ls <- mapM (fun chunk =>
                        ternary_matrix_to_decimal
                          (map3 (fun v => wrap_signed 32 (int_of_float v + 1)) chunk))
                     chunks ;;
    stack_codebooks codec_ls.


Definition encode (self : t R) (x : Tensor3 R)
    : result (Tensor3 Z * option (Tensor2 R)) :=
  compressed <- sm_encode (scalar_codec self) x ;;
  codes <- encode_latent self compressed ;;
  Ok (codes, None).

Definition encode_embedding (self : t R) (codes : Tensor3 Z) : result (Tensor4 R) :=
  let codes := permute_201 0 codes in
  in_embs <- mapM (fun i =>
                     in_tokens <- load_name
                                    [("self", None); ("codes", Some codes);
                                     ("in_embs", None); ("i", None)]%string
                                    "in_tokens" ;;
                     tokens_i <- select_first in_tokens i ;;
                     tmp_list <- decimal_to_ternary_matrix tokens_i
                                   (Z.to_nat (emb_dim self)) ;;
                     Ok (map3 (fun z => z - 1) tmp_list))
                  (range (num_codebooks self)) ;;
  in_embs <- stack_first in_embs ;;
  let in_embs := mkT4 (dim4_0 in_embs) (dim4_1 in_embs) (dim4_2 in_embs)
                      (dim4_3 in_embs)
                      (map (map (map (map float_of_int))) (cells4 in_embs)) in
  let in_embs := permute_1302 (float_of_int 0) in_embs in
  match proj_layer self with
  | Some layer => apply_linear layer in_embs
  | None => Ok in_embs
  end.

Definition decode_latent (self : t R) (codes : Tensor3 Z) : result (Tensor3 Z) :=
  emb_quant <- mapM (fun i =>
                       codes_i <- select_codebook codes i ;;
                       tmp_list <- decimal_to_ternary_matrix codes_i
                                     (Z.to_nat (emb_dim self)) ;;
                       Ok (map3 (fun z => z - 1) tmp_list))
                    (range (n_codebook self)) ;;
  cat_codebooks emb_quant.

Definition decode (self : t R) (codes : Tensor3 Z)
    (scale : option (Tensor2 R)) : result (Tensor3 R) :=
  assert (match scale with None => true | Some _ => false end) "" ;;;
  codes <- (if use_ternary self then Ok (map3 (fun z => z - 1) codes)
            else decode_latent self codes) ;;
  sm_decode (scalar_codec self) (map3 float_of_int codes).

#[global] Instance compression_model : CompressionModel.API R (Tensor2 R) (t R) := {|
  CompressionModel.encode := encode;
  CompressionModel.decode := decode;
  CompressionModel.decode_latent :=
    fun self codes => emb <- decode_latent self codes ;; Ok (map3 float_of_int emb);
  CompressionModel.channels := channels;
  CompressionModel.frame_rate := fun self => inject_Z (frame_rate self);
  CompressionModel.sample_rate := sample_rate;
  CompressionModel.cardinality := cardinality;
  CompressionModel.num_codebooks := num_codebooks;
  CompressionModel.total_codebooks := total_codebooks;
  CompressionModel.set_num_codebooks := set_num_codebooks
|}.

End Methods.

End SQCodec.

(** ** [class WavTokenizer(CompressionModel)] *)

(** The handle [wavtokenizer.WavTokenizer.from_pretrained0802] returns.
    [wt_encode x] is [model.encode(x.squeeze(1), bandwidth_id=0)[1]
    .movedim(0, 1)]; [wt_decode c] is [model.decode(model.codes_to_features
    (c.movedim(1, 0)), bandwidth_id=0).unsqueeze(1).clone()]. *)
Record WavTokModel (R : Type) : Type := mkWavTokModel {
  wt_encode : Tensor3 R -> result (Tensor3 Z);
  wt_decode : Tensor3 Z -> result (Tensor3 R)
}.

Arguments mkWavTokModel {R} _ _.
Arguments wt_encode {R} _ _.
Arguments wt_decode {R} _ _.

Module WavTokenizer.

Record t (R : Type) : Type := mk {
  sample_rate : Z;
  frame_rate : Z;
  cardinality : Z;
  model : WavTokModel R;
  n_quantizers : Z
}.

Arguments mk {R} _ _ _ _ _.
Arguments sample_rate {R} _.
Arguments frame_rate {R} _.
Arguments cardinality {R} _.
Arguments model {R} _.
Arguments n_quantizers {R} _.

Section Methods.
Context {R : Type}.

Definition num_codebooks (self : t R) : Z := 1.

Definition total_codebooks (self : t R) : Z := 1.

Definition init (model : WavTokModel R) : t R :=
  mk 24000 75 4096 model 1.

Definition encode (self : t R) (x : Tensor3 R)
    : result (Tensor3 Z * option (Tensor2 R)) :=
  tokens <- wt_encode (model self) x ;;
  Ok (tokens, None).

Definition decode (self : t R) (codes : Tensor3 Z)
    (scale : option (Tensor2 R)) : result (Tensor3 R) :=
  assert (match scale with None => true | Some _ => false end) "" ;;;
  wt_decode (model self) codes.

Definition decode_latent (self : t R) (codes : Tensor3 Z) : result (Tensor3 R) :=
  Err (NotImplementedError "decode_latent with WavTokeniser not supported.").

Definition set_num_codebooks (self : t R) (n : Z) : result (t R) :=
  assert (n =? 1) "WavTokenizer only supports 1 codebook" ;;;
  Ok (mk (sample_rate self) (frame_rate self) (cardinality self) (model self) n).

#[global] Instance compression_model : CompressionModel.API R (Tensor2 R) (t R) := {|
  CompressionModel.encode := encode;
  CompressionModel.decode := decode;
  CompressionModel.decode_latent := decode_latent;
  (* the class attribute [channels: int = 0] is never reassigned *)
  CompressionModel.channels := fun _ => 0;
  CompressionModel.frame_rate := fun self => inject_Z (frame_rate self);
  CompressionModel.sample_rate := sample_rate;
  CompressionModel.cardinality := cardinality;
  CompressionModel.num_codebooks := num_codebooks;
  CompressionModel.total_codebooks := total_codebooks;
  CompressionModel.set_num_codebooks := set_num_codebooks
|}.

End Methods.

End WavTokenizer.

(** ** [class HFEncodecCompressionModel(CompressionModel)] *)

(** The second argument of [HFEncodecModel.decode]: [[None]] or the scale
    tensor itself. *)
Inductive HFScales (R : Type) : Type :=
| NoScales
| Scales (scale : Tensor2 R).

Arguments NoScales {R}.
Arguments Scales {R} _.

(** The [transformers.EncodecModel] handle, with the fields of its
    [config].  [hf_encode x bw] is [model.encode(x, None, bw)],
    [hf_decode c s] is [model.decode(c[None], s)[0]], [hf_quantizer_decode
    c] is [model.quantizer.decode(c.transpose(0, 1))]. *)
Record HFModel (R : Type) : Type := mkHFModel {
  hf_target_bandwidths : list Q;
  hf_audio_channels : Z;
  hf_upsampling_ratios : list positive;
  hf_sampling_rate : Z;
  hf_codebook_size : Z;
  hf_encode : Tensor3 R -> Q -> result (list (Tensor3 Z) * list (option (Tensor2 R)));
  hf_decode : Tensor3 Z -> HFScales R -> result (Tensor3 R);
  hf_quantizer_decode : Tensor3 Z -> result (Tensor3 R)
}.

Arguments mkHFModel {R} _ _ _ _ _ _ _ _.
Arguments hf_target_bandwidths {R} _.
Arguments hf_audio_channels {R} _.
Arguments hf_upsampling_ratios {R} _.
Arguments hf_sampling_rate {R} _.
Arguments hf_codebook_size {R} _.
Arguments hf_encode {R} _ _ _.
Arguments hf_decode {R} _ _ _.
Arguments hf_quantizer_decode {R} _ _.

(** [max(l)] *)
Definition py_max (l : list Z) : result Z :=
  match l with
  | [] => Err (ValueError "max() arg is an empty sequence")
  | z :: l' => Ok (fold_left Z.max l' z)
  end.

(** [int(x)] of a float: truncation towards zero. *)
Definition py_int (q : Q) : Z := Z.quot (Qnum q) (Zpos (Qden q)).

(** [l.index(n)] *)
Fixpoint py_index (l : list Z) (n : Z) : result nat :=
  match l with
  | [] => Err (ValueError "x not in list")
  | z :: l' => if z =? n then Ok O else i <- py_index l' n ;; Ok (S i)
  end.

(** [n in l] *)
Definition py_in (n : Z) (l : list Z) : bool := existsb (Z.eqb n) l.

Module HFEncodecCompressionModel.

Record t (R : Type) : Type := mk {
  model : HFModel R;
  possible_num_codebooks : list Z;
  _num_codebooks : Z
}.

Arguments mk {R} _ _ _.
Arguments model {R} _.
Arguments possible_num_codebooks {R} _.
Arguments _num_codebooks {R} _.

Section Methods.
Context {R : Type}.

Definition channels (self : t R) : Z := hf_audio_channels (model self).

Definition sample_rate (self : t R) : Z := hf_sampling_rate (model self).

Definition frame_rate (self : t R) : Q :=
  let hop_length := fold_left Pos.mul (hf_upsampling_ratios (model self)) 1%positive in
  (inject_Z (sample_rate self) / inject_Z (Zpos hop_length))%Q.

Definition cardinality (self : t R) : Z := hf_codebook_size (model self).

Definition num_codebooks (self : t R) : Z := _num_codebooks self.

(** [max(self.possible_num_codebooks)]; [init] builds no object whose
    list is empty. *)
Definition total_codebooks (self : t R) : Z :=
  match py_max (possible_num_codebooks self) with
  | Ok m => m
  | Err _ => 0
  end.

Definition set_num_codebooks (self : t R) (n : Z) : result (t R) :=
  if negb (py_in n (possible_num_codebooks self)) then
    Err (ValueError ("Allowed values for num codebooks: "
                     ++ str_int_list (possible_num_codebooks self)))
  else Ok (mk (model self) (possible_num_codebooks self) n).

(** [__init__].  [num_codebooks] is the list the constructor computes in
    floating point from the target bandwidths, [bw * 1000 / (frame_rate *
    log2(cardinality))]; its floats are taken as the rationals they are.
    [all(deltas)] is a boolean, compared as 0 or 1 with [1e-3]; [repr] is
    the printing of the deltas in the assertion's message. *)
Definition init (model : HFModel R) (num_codebooks : list Q)
    (repr : list Q -> string) : result (t R) :=
  let deltas := map (fun nc => (nc - inject_Z (py_int nc))%Q) num_codebooks in
  assert (Qle_bool (if forallb (fun d => negb (Qeq_bool d 0)) deltas then 1 else 0)
                   (1 # 1000))
         (repr deltas) ;;;
  let possible := map py_int num_codebooks in
  top <- py_max possible ;;
  set_num_codebooks (mk model possible 0) top.

Definition encode (self : t R) (x : Tensor3 R)
    : result (Tensor3 Z * option (Tensor2 R)) :=
  bandwidth_index <- py_index (possible_num_codebooks self) (num_codebooks self) ;;
  bandwidth <- match nth_error (hf_target_bandwidths (model self)) bandwidth_index with
               | Some b => Ok b
               | None => Err (IndexError "list index out of range")
               end ;;
  res <- hf_encode (model self) x bandwidth ;;
  assert (length (fst res) =? 1)%nat "" ;;;
  assert (length (snd res) =? 1)%nat "" ;;;
  match fst res, snd res with
  | codes :: _, scale :: _ => Ok (codes, scale)
  | _, _ => Err (IndexError "list index out of range")
  end.

Definition decode (self : t R) (codes : Tensor3 Z)
    (scale : option (Tensor2 R)) : result (Tensor3 R) :=
  let scales := match scale with
                | None => NoScales
                | Some s => Scales s
                end in
  hf_decode (model self) codes scales.

Definition decode_latent (self : t R) (codes : Tensor3 Z) : result (Tensor3 R) :=
  hf_quantizer_decode (model self) codes.

#[global] Instance compression_model : CompressionModel.API R (Tensor2 R) (t R) := {|
  CompressionModel.encode := encode;
  CompressionModel.decode := decode;
  CompressionModel.decode_latent := decode_latent;
  CompressionModel.channels := channels;
  CompressionModel.frame_rate := frame_rate;
  CompressionModel.sample_rate := sample_rate;
  CompressionModel.cardinality := cardinality;
  CompressionModel.num_codebooks := num_codebooks;
  CompressionModel.total_codebooks := total_codebooks;
  CompressionModel.set_num_codebooks := set_num_codebooks
|}.

End Methods.

End HFEncodecCompressionModel.

(** ** [einops.rearrange] with [c=2]

    The four patterns of the stereo wrapper.  [torch.stack([l, r], dim=0)]
    is the pair of its two slices, which have one shape. *)

Record Stacked (A : Type) : Type := mkStacked {
  chan0 : Tensor3 A;
  chan1 : Tensor3 A
}.

Arguments mkStacked {A} _ _.
Arguments chan0 {A} _.
Arguments chan1 {A} _.

(** [torch.stack([l, r], dim=0)] *)
Definition stack_channels {A : Type} (l r : Tensor3 A) : result (Stacked A) :=
  if same_shape3 l r then Ok (mkStacked l r)
  else Err (RuntimeError "stack expects each tensor to be equal size").

(** [torch.stack([l, r], dim=1)] of two tensors [[B, S]]: [[B, 2, S]]. *)
Definition stack_scales {A : Type} (l r : Tensor2 A) : result (Tensor3 A) :=
  if same_shape2 l r
  then Ok (mkT3 (rows2 l) 2 (cols2 l)
                (zip_with (fun a b => [a; b]) (cells2 l) (cells2 r)))
  else Err (RuntimeError "stack expects each tensor to be equal size").

(** The axis [(n c)] with [c=2]: position [2 i] holds [l[i]], position
    [2 i + 1] holds [r[i]]. *)
Fixpoint weave {A : Type} (l r : list A) : list A :=
  match l, r with
  | x :: l', y :: r' => x :: y :: weave l' r'
  | _, _ => []
  end.

Fixpoint unweave {A : Type} (l : list A) : list A * list A :=
  match l with
  | x :: y :: l' => let (a, b) := unweave l' in (x :: a, y :: b)
  | _ => ([], [])
  end.

(** ['c b k t -> b k (t c)'] *)
Definition rearrange_to_b_k_tc {A : Type} (s : Stacked A) : Tensor3 A :=
  let l := chan0 s in
  mkT3 (dimB l) (dimK l) (dimT l * 2)
       (zip_with (zip_with weave) (cells l) (cells (chan1 s))).

(** ['c b k t -> b (k c) t'] *)
Definition rearrange_to_b_kc_t {A : Type} (s : Stacked A) : Tensor3 A :=
  let l := chan0 s in
  mkT3 (dimB l) (dimK l * 2) (dimT l)
       (zip_with weave (cells l) (cells (chan1 s))).

(** ['b k (t c) -> c b k t'] *)
Definition einops_msg (n : nat) : string :=
  "Shape mismatch, can't divide axis of length " ++ str_nat n ++ " in chunks of 2".

Definition rearrange_from_b_k_tc {A : Type} (x : Tensor3 A) : result (Stacked A) :=
  if Nat.even (dimT x) then
    Ok (mkStacked
          (mkT3 (dimB x) (dimK x) (dimT x / 2)
                (map (map (fun row => fst (unweave row))) (cells x)))
          (mkT3 (dimB x) (dimK x) (dimT x / 2)
                (map (map (fun row => snd (unweave row))) (cells x))))
  else Err (EinopsError (einops_msg (dimT x))).

(** ['b (k c) t -> c b k t'] *)
Definition rearrange_from_b_kc_t {A : Type} (x : Tensor3 A) : result (Stacked A) :=
  if Nat.even (dimK x) then
    Ok (mkStacked
          (mkT3 (dimB x) (dimK x / 2) (dimT x)
                (map (fun item => fst (unweave item)) (cells x)))
          (mkT3 (dimB x) (dimK x / 2) (dimT x)
                (map (fun item => snd (unweave item)) (cells x))))
  else Err (EinopsError (einops_msg (dimK x))).

(** [str(scale.shape)] *)
Definition str_shape3 {A : Type} (x : Tensor3 A) : string :=
  ("torch.Size([" ++ str_nat (dimB x) ++ ", " ++ str_nat (dimK x) ++ ", "
     ++ str_nat (dimT x) ++ "])")%string.

(** ** [class InterleaveStereoCompressionModel(CompressionModel)] *)

Module InterleaveStereoCompressionModel.

Record t (M : Type) : Type := mk {
  model : M;
  per_timestep : bool
}.

Arguments mk {M} _ _.
Arguments model {M} _.
Arguments per_timestep {M} _.

Definition timesteps_msg : string :=
  "Provided codes' number of timesteps does not match".

Definition codebooks_msg : string :=
  "Provided codes' number of codebooks does not match".

Section Methods.
Context {R M : Type} `{CompressionModel.API R (Tensor2 R) M}.

Definition init (model : M) (per_timestep : bool) : result (t M) :=
  assert (CompressionModel.channels model =? 1)
         "Wrapped model is expected to be for monophonic audio" ;;;
  Ok (mk model per_timestep).

Definition total_codebooks (self : t M) : Z :=
  CompressionModel.total_codebooks (model self).

Definition num_codebooks (self : t M) : Z :=
  if per_timestep self then CompressionModel.num_codebooks (model self)
  else CompressionModel.num_codebooks (model self) * 2.

Definition set_num_codebooks (self : t M) (n : Z) : result (t M) :=
  m <- CompressionModel.set_num_codebooks (model self) n ;;
  Ok (mk m (per_timestep self)).

Definition num_virtual_steps (self : t M) : Z :=
  if per_timestep self then 2 else 1.

Definition frame_rate (self : t M) : Q :=
  (CompressionModel.frame_rate (model self)
   * inject_Z (num_virtual_steps self))%Q.

Definition sample_rate (self : t M) : Z :=
  CompressionModel.sample_rate (model self).

Definition channels (self : t M) : Z := 2.

Definition cardinality (self : t M) : Z :=
  CompressionModel.cardinality (model self).

Definition encode (self : t M) (x : Tensor3 R)
    : result (Tensor3 Z * option (Tensor3 R)) :=
  let C := dimK x in
  assert (Z.of_nat C =? channels self)
         ("Expecting stereo audio but audio num channels is " ++ str_nat C) ;;;
  r0 <- CompressionModel.encode (model self) (select_channel x 0) ;;
  let '(indices_c0, scales_c0) := r0 in
  r1 <- CompressionModel.encode (model self) (select_channel x 1) ;;
  let '(indices_c1, scales_c1) := r1 in
  indices <- stack_channels indices_c0 indices_c1 ;;
  scales <- match scales_c0, scales_c1 with
            | Some s0, Some s1 => s <- stack_scales s0 s1 ;; Ok (Some s)
            | _, _ => Ok None
            end ;;
  let indices := if per_timestep self then rearrange_to_b_k_tc indices
                 else rearrange_to_b_kc_t indices in
  Ok (indices, scales).

(** The shape [encode] gives to the codes of two channels of the
    shape of [l]. *)
Definition interleaved_shape (self : t M) (l : Tensor3 Z) : nat * nat * nat :=
  if per_timestep self then (dimB l, dimK l, (dimT l * 2)%nat)
  else (dimB l, (dimK l * 2)%nat, dimT l).

(** Codebook [2 i] (timestep [2 i]) of [codes] is codebook (timestep)
    [i] of [l], codebook [2 i + 1] that of [r]. *)
Definition interleaved_layout (self : t M) (codes l r : Tensor3 Z) : Prop :=
  if per_timestep self then
    forall b k i, cell_at codes b k (2 * i) = cell_at l b k i
                  /\ cell_at codes b k (2 * i + 1) = cell_at r b k i
  else
    forall b i, row_at codes b (2 * i) = row_at l b i
                /\ row_at codes b (2 * i + 1) = row_at r b i.

(** Two scales that [torch.stack] accepts, when both are present. *)
Definition scales_stackable (sl sr : option (Tensor2 R)) : Prop :=
  forall s0 s1, sl = Some s0 -> sr = Some s1 -> same_shape2 s0 s1 = true.

Definition get_left_right_codes (self : t M) (codes : Tensor3 Z)
    : result (Tensor3 Z * Tensor3 Z) :=
  codes <- (if per_timestep self then rearrange_from_b_k_tc codes
            else rearrange_from_b_kc_t codes) ;;
  Ok (chan0 codes, chan1 codes).

(** The part of [decode] after the two checks on the shape of [codes]. *)
Definition decode_channels (self : t M) (codes : Tensor3 Z)
    (scale : option (Tensor3 R)) : result (Tensor3 R) :=
  let B := dimB codes in
  sc <- match scale with
        | Some scale =>
            assert ((dimB scale =? B)%nat && (dimK scale =? 2)%nat)
                   ("Scale has unexpected shape: " ++ str_shape3 scale) ;;;
            scale_c0 <- select_first scale 0 ;;
            scale_c1 <- select_first scale 1 ;;
            Ok (Some scale_c0, Some scale_c1)
        | None => Ok (None, None)
        end ;;
  let '(scale_c0, scale_c1) := sc in
  lr <- get_left_right_codes self codes ;;
  let '(codes_c0, codes_c1) := lr in
  audio_c0 <- CompressionModel.decode (model self) codes_c0 scale_c0 ;;
  audio_c1 <- CompressionModel.decode (model self) codes_c1 scale_c1 ;;
  cat_pair audio_c0 audio_c1.

Definition decode (self : t M) (codes : Tensor3 Z)
    (scale : option (Tensor3 R)) : result (Tensor3 R) :=
  let K := dimK codes in
  let T := dimT codes in
  assert (Z.of_nat T mod num_virtual_steps self =? 0) timesteps_msg ;;;
  assert (Z.of_nat K =? num_codebooks self) codebooks_msg ;;;
  decode_channels self codes scale.

Definition decode_latent (self : t M) (codes : Tensor3 Z) : result (Tensor3 R) :=
  Err (NotImplementedError "Not supported by interleaved stereo wrapped models.").

#[global] Instance compression_model : CompressionModel.API R (Tensor3 R) (t M) := {|
  CompressionModel.encode := encode;
  CompressionModel.decode := decode;
  CompressionModel.decode_latent := decode_latent;
  CompressionModel.channels := channels;
  CompressionModel.frame_rate := frame_rate;
  CompressionModel.sample_rate := sample_rate;
  CompressionModel.cardinality := cardinality;
  CompressionModel.num_codebooks := num_codebooks;
  CompressionModel.total_codebooks := total_codebooks;
  CompressionModel.set_num_codebooks := set_num_codebooks
|}.

End Methods.

End InterleaveStereoCompressionModel.

(** ** Concrete objects

    Small stand-ins for the external collaborators, on which the
    definitions above can be run: integer-valued samples, a quantizer that
    writes a sample into [n] codebooks, codecs that copy their input. *)

Module Examples.

(** Integers in place of floating-point samples; the scale of an item is
    one more than its peak. *)
#[global] Instance integer_samples : Sample Z := {|
  float_of_int := fun z => z;
  int_of_float := fun z => z;
  fmul := Z.mul;
  fdiv := Z.div;
  volume_scale := fun item => 1 + fold_left Z.max (map Z.abs (concat item)) 0
|}.

Record ToyQuantizer : Type := mkToy {
  toy_total : Z;
  toy_active : Z;
  toy_bins : Z
}.

(** Codebook [k] of a frame holds the sample shifted by [k], modulo the
    number of bins; decoding reads codebook 0. *)
#[global] Instance toy_quantizer : BaseQuantizer.API Z ToyQuantizer := {|
  BaseQuantizer.total_codebooks := toy_total;
  BaseQuantizer.num_codebooks := toy_active;
  BaseQuantizer.bins := toy_bins;
  BaseQuantizer.encode := fun q emb =>
    Ok (mkT3 (dimB emb) (Z.to_nat (toy_active q)) (dimT emb)
             (map (fun item =>
                     map (fun k => map (fun v => (v + Z.of_nat k) mod toy_bins q)
                                       (nth 0 item []))
                         (range (toy_active q)))
                  (cells emb)));
  BaseQuantizer.decode := fun q codes =>
    Ok (mkT3 (dimB codes) 1 (dimT codes)
             (map (fun item => [nth 0 item []]) (cells codes)));
  BaseQuantizer.set_num_codebooks := fun q n =>
    assert ((1 <=? n) && (n <=? toy_total q)) "" ;;;
    Ok (mkToy (toy_total q) n (toy_bins q))
|}.

Definition identity_net (x : Tensor3 Z) : result (Tensor3 Z) := Ok x.

(** An [EncodecModel] with three codebooks of 16 bins. *)
Definition toy_encodec (renormalize : bool) : EncodecModel.t Z ToyQuantizer :=
  EncodecModel.mk identity_net identity_net (mkToy 3 3 16) 50 16000 1
                  renormalize false.

Definition toy_scalar_codec : ScalarModel Z :=
  mkScalarModel identity_net identity_net.

Definition toy_linear (i o : Z) : Linear Z :=
  mkLinear i o (fun v => Ok (firstn (Z.to_nat o) v)).

(** [SQCodec()] *)
Definition toy_sqcodec : SQCodec.t Z :=
  SQCodec.default toy_scalar_codec toy_linear.

(** A stereo frame [[1, 2, 3]]: one item, two channels, three samples. *)
Definition stereo_frame : Tensor3 Z :=
  mkT3 1 2 3 [[[1; 2; 3]; [4; 5; 6]]].

Definition stereo_codebooks : InterleaveStereoCompressionModel.t
                                (EncodecModel.t Z ToyQuantizer) :=
  InterleaveStereoCompressionModel.mk (toy_encodec false) false.

Definition stereo_timesteps : InterleaveStereoCompressionModel.t
                                (EncodecModel.t Z ToyQuantizer) :=
  InterleaveStereoCompressionModel.mk (toy_encodec false) true.

Definition stereo_renormalized : InterleaveStereoCompressionModel.t
                                   (EncodecModel.t Z ToyQuantizer) :=
  InterleaveStereoCompressionModel.mk (toy_encodec true) false.

End Examples.

(** ** Sequences of configuration calls *)

(** A caller issuing [set_num_codebooks(n)] for every [n] of a list, in
    order; a call that raises assigns nothing and leaves the object as it
    was. *)
Definition configure {M : Type} (set : M -> Z -> result M) (m : M) (ns : list Z) : M :=
  fold_left (fun m n => match set m n with
                        | Ok m' => m'
                        | Err _ => m
                        end) ns m.

(** A count computed by the HF adapter's constructor that is a whole
    number: its delta [nc - int(nc)] is zero. *)
Definition whole (nc : Q) : Prop := (nc - inject_Z (py_int nc) == 0)%Q.

(** The arguments [DAC.set_num_codebooks] accepts. *)
Definition dac_in_range {R : Type} (model : DacModel R) (n : Z) : bool :=
  (1 <=? n) && (n <=? dac_n_codebooks model).

(** ** [EncodecModel.forward] *)

(** [qt.QuantizedResult]: the field [x] that [forward] reads and assigns,
    and the other fields, which it leaves alone. *)
Record QuantizedResult (R Info : Type) : Type := mkQuantizedResult {
  qr_x : Tensor3 R;
  qr_info : Info
}.

Arguments mkQuantizedResult {R Info} _ _.
Arguments qr_x {R Info} _.
Arguments qr_info {R Info} _.

(** [x[..., :length]] *)
Definition narrow_time {A : Type} (x : Tensor3 A) (length : nat) : Tensor3 A :=
  mkT3 (dimB x) (dimK x) (Nat.min length (dimT x))
       (map (map (firstn length)) (cells x)).

Module EncodecModelForward.

Section Methods.
Context {R : Type} `{Sample R} {Qz : Type} `{BaseQuantizer.API R Qz} {Info : Type}.

(** [quantize q emb frame_rate] is the call [self.quantizer(emb,
    self.frame_rate)]. *)
Definition forward (quantize : Qz -> Tensor3 R -> Z -> result (QuantizedResult R Info))
    (self : EncodecModel.t R Qz) (x : Tensor3 R)
    : result (QuantizedResult R Info) :=
  let length := dimT x in
  let '(x, scale) := EncodecModel.preprocess self x in
  emb <- EncodecModel.encoder self x ;;
  q_res <- quantize (EncodecModel.quantizer self) emb (EncodecModel.frame_rate self) ;;
  out <- EncodecModel.decoder self (qr_x q_res) ;;
  assert (length <=? dimT out)%nat
         ("(" ++ str_nat (dimT out) ++ ", " ++ str_nat length ++ ")") ;;;
  let out := narrow_time out length in
  x' <- EncodecModel.postprocess self out scale ;;
  Ok (mkQuantizedResult x' (qr_info q_res)).

End Methods.

End EncodecModelForward.

(** * Properties *)

(** ** RadixCodec *)

Section RadixCodecFacts.
Import RadixCodec.

Lemma valid_digit_iff (d : Z) : valid_digit d = true <-> 0 <= d <= 2.
Proof. unfold valid_digit. rewrite andb_true_iff, !Z.leb_le. tauto. Qed.

Lemma value_lsf_app (w1 w2 : list Z) :
  value_lsf (w1 ++ w2) = value_lsf w1 + 3 ^ Z.of_nat (length w1) * value_lsf w2.
Proof.
  induction w1 as [|d w1 IH]; cbn [value_lsf app length].
  - change (Z.of_nat 0) with 0. rewrite Z.pow_0_r. lia.
  - rewrite IH, Nat2Z.inj_succ, Z.pow_succ_r by lia. lia.
Qed.

Lemma value_lsf_bounds (w : list Z) :
  digits_ok w -> 0 <= value_lsf w < 3 ^ Z.of_nat (length w).
Proof.
  induction 1 as [|d w Hd _ IH]; cbn [value_lsf length].
  - change (Z.of_nat 0) with 0. rewrite Z.pow_0_r. lia.
  - rewrite Nat2Z.inj_succ, Z.pow_succ_r by lia. lia.
Qed.

Lemma pack_from_value (v : list Z) :
  digits_ok v ->
  forall acc, pack_from acc v
              = Ok (acc * 3 ^ Z.of_nat (length v) + value_lsf (rev v)).
Proof.
  induction 1 as [|d v Hd _ IH]; intro acc; cbn [pack_from rev length].
  - change (Z.of_nat 0) with 0. rewrite Z.pow_0_r. cbn [value_lsf].
    f_equal. lia.
  - apply valid_digit_iff in Hd. rewrite Hd, IH.
    rewrite value_lsf_app, length_rev. cbn [value_lsf].
    rewrite Nat2Z.inj_succ, Z.pow_succ_r by lia.
    f_equal. lia.
Qed.

Lemma pack_value (v : list Z) :
  digits_ok v -> pack v = Ok (value_lsf (rev v)).
Proof.
  intro Hv. unfold pack. rewrite pack_from_value by assumption. reflexivity.
Qed.

Lemma lsd_digits_zero (fuel : nat) : lsd_digits fuel 0 = [].
Proof. destruct fuel; reflexivity. Qed.

Lemma lsd_digits_succ (fuel : nat) (code : Z) :
  lsd_digits (S fuel) code
  = if code =? 0 then [] else (code mod 3) :: lsd_digits fuel (code / 3).
Proof. reflexivity. Qed.

(** The loop returns the digits up to the most significant non-zero one;
    the padding restores the others. *)
Lemma lsd_digits_value (w : list Z) :
  digits_ok w ->
  lsd_digits (length w) (value_lsf w)
    ++ repeat 0 (length w - length (lsd_digits (length w) (value_lsf w)))
  = w.
Proof.
  induction 1 as [|d w Hd Hw IH]; [reflexivity|].
  cbn [length value_lsf]. rewrite lsd_digits_succ.
  pose proof (value_lsf_bounds w Hw) as Hb.
  destruct (Z.eqb_spec (d + 3 * value_lsf w) 0) as [E|E].
  - assert (d = 0) by lia. assert (Hz : value_lsf w = 0) by lia. subst d.
    rewrite Hz, lsd_digits_zero in IH. cbn [length app] in *.
    rewrite Nat.sub_0_r in *. cbn [repeat]. f_equal. exact IH.
  - replace (d + 3 * value_lsf w) with (d + value_lsf w * 3) by lia.
    rewrite Z_mod_plus_full, Z_div_plus_full by lia.
    rewrite Z.mod_small, Z.div_small by lia. rewrite Z.add_0_l.
    cbn [length app]. rewrite Nat.sub_succ. f_equal. exact IH.
Qed.

Lemma unpack_value (w : list Z) :
  digits_ok w -> unpack (value_lsf w) (length w) = Ok (rev w).
Proof.
  intro Hw. unfold unpack.
  pose proof (value_lsf_bounds w Hw) as Hb.
  replace (value_lsf w <? 0) with false by (symmetry; apply Z.ltb_ge; lia).
  replace (3 ^ Z.of_nat (length w) <=? value_lsf w) with false
    by (symmetry; apply Z.leb_gt; lia).
  cbn [orb]. f_equal.
  transitivity
    (rev (lsd_digits (length w) (value_lsf w)
          ++ repeat 0 (length w - length (lsd_digits (length w) (value_lsf w))))).
  - rewrite rev_app_distr, rev_repeat. reflexivity.
  - f_equal. apply lsd_digits_value. exact Hw.
Qed.

End RadixCodecFacts.

(** C1.  For every digit vector [v] of length [D] with digits in [{0,1,2}],
    packing succeeds and unpacking the packed code with group length [D]
    gives back [v]. *)
Theorem unpack_pack_roundtrip (v : list Z) :
  RadixCodec.digits_ok v ->
  exists code, RadixCodec.pack v = Ok code
               /\ RadixCodec.unpack code (length v) = Ok v.
Proof.
  intro Hv. exists (RadixCodec.value_lsf (rev v)). split.
  - apply pack_value; assumption.
  - rewrite <- (length_rev v). rewrite unpack_value.
    + rewrite rev_involutive. reflexivity.
    + apply Forall_rev. exact Hv.
Qed.

Lemma unpack_pack_roundtrip_witness :
  RadixCodec.digits_ok [2; 0; 2; 2; 1]
  /\ exists code, RadixCodec.pack [2; 0; 2; 2; 1] = Ok code
                  /\ RadixCodec.unpack code 5 = Ok [2; 0; 2; 2; 1].
Proof.
  split.
  - repeat constructor; lia.
  - apply (unpack_pack_roundtrip [2; 0; 2; 2; 1]). repeat constructor; lia.
Defined.

(** C5.  With group length 4, most-significant digit first, the group
    [[1,0,2,1]] packs to 34 and 34 unpacks to [[1,0,2,1]]. *)
Theorem pack_unpack_34 :
  RadixCodec.pack [1; 0; 2; 1] = Ok 34
  /\ RadixCodec.unpack 34 4 = Ok [1; 0; 2; 1].
Proof. split; reflexivity. Qed.

(** ** The ternary codec inside [SQCodec] *)

Section ListFacts.
Context {A : Type}.




Lemma In_block (D k : nat) (l : list A) (r : A) :
In r (firstn D (skipn k l)) -> In r l.
Proof.
intro Hin. rewrite <- (firstn_skipn k l). apply in_or_app. right.
rewrite <- (firstn_skipn D (skipn k l)). apply in_or_app. left. exact Hin.
Qed.


End ListFacts.

Section Transpose.
Context {A : Type} (d : A).


End Transpose.

Section GroupCodec.
Import RadixCodec.







End GroupCodec.

Section StackSelect.
Context {A : Type}.








End StackSelect.

Section Blocks.
Context {A B : Type}.



End Blocks.

Section LatentRoundtrip.
Context {R : Type} `{Sample R}.







End LatentRoundtrip.

(** ** Interleaving *)

Section Weaving.
Context {A : Type}.

Lemma unweave_weave (l r : list A) :
  length l = length r -> unweave (weave l r) = (l, r).
Proof.
  revert r. induction l as [|x l IH]; intros [|y r] E; try discriminate.
  - reflexivity.
  - cbn [weave unweave]. rewrite IH by (simpl in E; lia). reflexivity.
Qed.

(** Position [2 i] of the woven axis is [l[i]], position [2 i + 1] is
    [r[i]]. *)
Lemma nth_error_weave (l r : list A) (i : nat) :
  length l = length r ->
  nth_error (weave l r) (2 * i) = nth_error l i
  /\ nth_error (weave l r) (2 * i + 1) = nth_error r i.
Proof.
  revert r i. induction l as [|x l IH]; intros [|y r] i E; try discriminate.
  - destruct i; split; reflexivity.
  - destruct i as [|i].
    + split; reflexivity.
    + replace (2 * S i)%nat with (S (S (2 * i))) by lia.
      replace (S (S (2 * i)) + 1)%nat with (S (S (2 * i + 1))) by lia.
      cbn [weave nth_error]. apply IH. simpl in E; lia.
Qed.

End Weaving.

Section ZipWith.
Context {A B C : Type}.

Lemma map_zip_with_left (f : A -> B -> C) (g : C -> A) (la : list A) (lb : list B) :
  length la = length lb ->
  (forall a b, In a la -> In b lb -> g (f a b) = a) ->
  map g (zip_with f la lb) = la.
Proof.
  unfold zip_with.
  revert lb. induction la as [|a la IH]; intros [|b lb] E Hg; try discriminate.
  - reflexivity.
  - cbn [combine map fst snd]. rewrite Hg by (left; reflexivity). f_equal.
    apply IH; [simpl in E; lia|]. intros; apply Hg; right; assumption.
Qed.

Lemma map_zip_with_right (f : A -> B -> C) (g : C -> B) (la : list A) (lb : list B) :
  length la = length lb ->
  (forall a b, In a la -> In b lb -> g (f a b) = b) ->
  map g (zip_with f la lb) = lb.
Proof.
  unfold zip_with.
  revert lb. induction la as [|a la IH]; intros [|b lb] E Hg; try discriminate.
  - reflexivity.
  - cbn [combine map fst snd]. rewrite Hg by (left; reflexivity). f_equal.
    apply IH; [simpl in E; lia|]. intros; apply Hg; right; assumption.
Qed.

Lemma nth_error_zip_with (f : A -> B -> C) (la : list A) (lb : list B) (i : nat) :
  nth_error (zip_with f la lb) i
  = match nth_error la i, nth_error lb i with
    | Some a, Some b => Some (f a b)
    | _, _ => None
    end.
Proof.
  unfold zip_with. revert lb i.
  induction la as [|a la IH]; intros [|b lb] [|i]; cbn [combine map nth_error];
    try reflexivity.
  - destruct (nth_error la i); reflexivity.
  - apply IH.
Qed.

Lemma nth_error_same_length (la : list A) (lb : list B) (i : nat) :
  length la = length lb ->
  (exists a b, nth_error la i = Some a /\ nth_error lb i = Some b)
  \/ (nth_error la i = None /\ nth_error lb i = None).
Proof.
  intro E. destruct (Nat.lt_ge_cases i (length la)) as [Hi|Hi].
  - left. destruct (nth_error la i) as [a|] eqn:Ea.
    + destruct (nth_error lb i) as [b|] eqn:Eb; [eauto|].
      apply nth_error_None in Eb. lia.
    + apply nth_error_None in Ea. lia.
  - right. split; apply nth_error_None; lia.
Qed.

End ZipWith.

Section Shapes.
Context {A : Type}.

Lemma matrix_shape_row (r c : nat) (m : list (list A)) (row : list A) :
  matrix_shape r c m -> In row m -> length row = c.
Proof.
  intros [_ Hm] Hin. rewrite Forall_forall in Hm. apply Hm; assumption.
Qed.

Lemma wf3_item (x : Tensor3 A) (item : list (list A)) :
  wf3 x -> In item (cells x) -> matrix_shape (dimK x) (dimT x) item.
Proof.
  intros [_ Hx] Hin. rewrite Forall_forall in Hx. apply Hx; assumption.
Qed.

Lemma tensor3_eta (x : Tensor3 A) :
  mkT3 (dimB x) (dimK x) (dimT x) (cells x) = x.
Proof. destruct x; reflexivity. Qed.

Lemma same_shape3_true (x y : Tensor3 A) :
  same_shape3 x y = true <-> shape3 x = shape3 y.
Proof.
  unfold same_shape3, shape3. rewrite !andb_true_iff, !Nat.eqb_eq. split.
  - intros [[-> ->] ->]. reflexivity.
  - intro E. injection E as -> -> ->. auto.
Qed.

(** De-interleaving the codebook axis undoes its interleaving. *)
Lemma rearrange_b_kc_t_inverse (l r : Tensor3 A) :
  wf3 l -> wf3 r -> shape3 l = shape3 r ->
  rearrange_from_b_kc_t (rearrange_to_b_kc_t (mkStacked l r)) = Ok (mkStacked l r).
Proof.
  intros Hl Hr E. unfold rearrange_from_b_kc_t, rearrange_to_b_kc_t.
  cbn [chan0 chan1 dimB dimK dimT cells].
  rewrite Nat.even_mul, orb_true_r, Nat.div_mul by discriminate.
  assert (Hlen : length (cells l) = length (cells r)).
  { destruct Hl as [-> _], Hr as [-> _]. unfold shape3 in E. congruence. }
  assert (Hrows : forall a b, In a (cells l) -> In b (cells r) -> length a = length b).
  { intros a b Ha Hb.
    destruct (wf3_item l a Hl Ha) as [-> _], (wf3_item r b Hr Hb) as [-> _].
    unfold shape3 in E. congruence. }
  rewrite map_zip_with_left, map_zip_with_right; trivial.
  - rewrite tensor3_eta. unfold shape3 in E. injection E as -> -> ->.
    rewrite tensor3_eta. reflexivity.
  - intros a b Ha Hb. rewrite unweave_weave by auto. reflexivity.
  - intros a b Ha Hb. rewrite unweave_weave by auto. reflexivity.
Qed.

(** De-interleaving the time axis undoes its interleaving. *)
Lemma rearrange_b_k_tc_inverse (l r : Tensor3 A) :
  wf3 l -> wf3 r -> shape3 l = shape3 r ->
  rearrange_from_b_k_tc (rearrange_to_b_k_tc (mkStacked l r)) = Ok (mkStacked l r).
Proof.
  intros Hl Hr E. unfold rearrange_from_b_k_tc, rearrange_to_b_k_tc.
  cbn [chan0 chan1 dimB dimK dimT cells].
  rewrite Nat.even_mul, orb_true_r, Nat.div_mul by discriminate.
  assert (Hlen : length (cells l) = length (cells r)).
  { destruct Hl as [-> _], Hr as [-> _]. unfold shape3 in E. congruence. }
  assert (HK : dimK l = dimK r) by (unfold shape3 in E; congruence).
  assert (HT : dimT l = dimT r) by (unfold shape3 in E; congruence).
  rewrite map_zip_with_left, map_zip_with_right; trivial.
  - rewrite tensor3_eta. unfold shape3 in E. injection E as -> -> ->.
    rewrite tensor3_eta. reflexivity.
  - intros a b Ha Hb.
    pose proof (wf3_item l a Hl Ha) as Sa. pose proof (wf3_item r b Hr Hb) as Sb.
    apply map_zip_with_right.
    + destruct Sa as [-> _], Sb as [-> _]. exact HK.
    + intros ra rb Hra Hrb. rewrite unweave_weave; [reflexivity|].
      rewrite (matrix_shape_row _ _ _ _ Sa Hra), (matrix_shape_row _ _ _ _ Sb Hrb).
      exact HT.
  - intros a b Ha Hb.
    pose proof (wf3_item l a Hl Ha) as Sa. pose proof (wf3_item r b Hr Hb) as Sb.
    apply map_zip_with_left.
    + destruct Sa as [-> _], Sb as [-> _]. exact HK.
    + intros ra rb Hra Hrb. rewrite unweave_weave; [reflexivity|].
      rewrite (matrix_shape_row _ _ _ _ Sa Hra), (matrix_shape_row _ _ _ _ Sb Hrb).
      exact HT.
Qed.

Lemma layout_b_kc_t (l r : Tensor3 A) (b i : nat) :
  wf3 l -> wf3 r -> shape3 l = shape3 r ->
  row_at (rearrange_to_b_kc_t (mkStacked l r)) b (2 * i) = row_at l b i
  /\ row_at (rearrange_to_b_kc_t (mkStacked l r)) b (2 * i + 1) = row_at r b i.
Proof.
  intros Hl Hr E. unfold row_at, rearrange_to_b_kc_t. cbn [chan0 chan1 cells].
  rewrite nth_error_zip_with.
  assert (Hlen : length (cells l) = length (cells r)).
  { destruct Hl as [-> _], Hr as [-> _]. unfold shape3 in E. congruence. }
  destruct (nth_error_same_length (cells l) (cells r) b Hlen)
    as [(a & a' & Ea & Ea')|[Ea Ea']]; rewrite Ea, Ea'; [|split; reflexivity].
  apply nth_error_weave.
  apply nth_error_In in Ea, Ea'.
  destruct (wf3_item l a Hl Ea) as [-> _], (wf3_item r a' Hr Ea') as [-> _].
  unfold shape3 in E. congruence.
Qed.

Lemma layout_b_k_tc (l r : Tensor3 A) (b k i : nat) :
  wf3 l -> wf3 r -> shape3 l = shape3 r ->
  cell_at (rearrange_to_b_k_tc (mkStacked l r)) b k (2 * i) = cell_at l b k i
  /\ cell_at (rearrange_to_b_k_tc (mkStacked l r)) b k (2 * i + 1) = cell_at r b k i.
Proof.
  intros Hl Hr E. unfold cell_at, row_at, rearrange_to_b_k_tc.
  cbn [chan0 chan1 cells]. rewrite nth_error_zip_with.
  assert (Hlen : length (cells l) = length (cells r)).
  { destruct Hl as [-> _], Hr as [-> _]. unfold shape3 in E. congruence. }
  destruct (nth_error_same_length (cells l) (cells r) b Hlen)
    as [(a & a' & Ea & Ea')|[Ea Ea']]; rewrite Ea, Ea'; [|split; reflexivity].
  apply nth_error_In in Ea, Ea'.
  pose proof (wf3_item l a Hl Ea) as Sa. pose proof (wf3_item r a' Hr Ea') as Sb.
  rewrite nth_error_zip_with.
  assert (Hrows : length a = length a').
  { destruct Sa as [-> _], Sb as [-> _]. unfold shape3 in E. congruence. }
  destruct (nth_error_same_length a a' k Hrows)
    as [(ra & rb & Era & Erb)|[Era Erb]]; rewrite Era, Erb; [|split; reflexivity].
  apply nth_error_weave.
  apply nth_error_In in Era, Erb.
  rewrite (matrix_shape_row _ _ _ _ Sa Era), (matrix_shape_row _ _ _ _ Sb Erb).
  unfold shape3 in E. congruence.
Qed.

End Shapes.

Section StereoWrapper.
Import InterleaveStereoCompressionModel.
Context {R M : Type} `{CompressionModel.API R (Tensor2 R) M}.

(** What [encode] returns once the wrapped model has encoded the two
    channels. *)
Lemma encode_unfold (self : t M) (x : Tensor3 R)
    (l r : Tensor3 Z) (sl sr : option (Tensor2 R)) :
  dimK x = 2%nat ->
  CompressionModel.encode (model self) (select_channel x 0) = Ok (l, sl) ->
  CompressionModel.encode (model self) (select_channel x 1) = Ok (r, sr) ->
  shape3 l = shape3 r ->
  encode self x
  = (scales <- match sl, sr with
               | Some s0, Some s1 => s <- stack_scales s0 s1 ;; Ok (Some s)
               | _, _ => Ok None
               end ;;
     Ok (if per_timestep self then rearrange_to_b_k_tc (mkStacked l r)
         else rearrange_to_b_kc_t (mkStacked l r), scales)).
Proof.
  intros HC E0 E1 Es. unfold encode. rewrite HC. cbn [channels assert Z.of_nat].
  cbn [Z.eqb Pos.of_succ_nat Pos.succ Pos.eqb bind]. rewrite E0. cbn [bind].
  rewrite E1. cbn [bind]. unfold stack_channels.
  apply same_shape3_true in Es. rewrite Es. cbn [bind]. reflexivity.
Qed.

End StereoWrapper.

(** C2.  When the wrapped backend encodes the two channels into code
    tensors [l] and [r] of one shape [[B, K, T]], the wrapper's [encode]
    returns a tensor of shape [[B, 2K, T]] (codebook axis) or [[B, K, 2T]]
    (time axis) from which [get_left_right_codes] recovers [l] and [r]
    exactly. *)
Theorem interleave_roundtrip {R M : Type} `{CompressionModel.API R (Tensor2 R) M}
    (self : InterleaveStereoCompressionModel.t M) (x : Tensor3 R)
    (l r : Tensor3 Z) (sl sr : option (Tensor2 R)) :
  dimK x = 2%nat ->
  CompressionModel.encode (InterleaveStereoCompressionModel.model self)
                          (select_channel x 0) = Ok (l, sl) ->
  CompressionModel.encode (InterleaveStereoCompressionModel.model self)
                          (select_channel x 1) = Ok (r, sr) ->
  wf3 l -> wf3 r -> shape3 l = shape3 r ->
  InterleaveStereoCompressionModel.scales_stackable sl sr ->
  exists codes scales,
    InterleaveStereoCompressionModel.encode self x = Ok (codes, scales)
    /\ shape3 codes = InterleaveStereoCompressionModel.interleaved_shape self l
    /\ InterleaveStereoCompressionModel.interleaved_layout self codes l r
    /\ InterleaveStereoCompressionModel.get_left_right_codes self codes = Ok (l, r).
Proof.
  intros HC E0 E1 Hl Hr Es Hs.
  rewrite (encode_unfold self x l r sl sr HC E0 E1 Es).
  assert (Hsc : exists scales,
             match sl, sr with
             | Some s0, Some s1 => s <- stack_scales s0 s1 ;; Ok (Some s)
             | _, _ => Ok None
             end = Ok scales).
  { destruct sl as [s0|], sr as [s1|]; try (eexists; reflexivity).
    unfold stack_scales. rewrite (Hs s0 s1) by reflexivity.
    eexists; reflexivity. }
  destruct Hsc as [scales ->]. cbn [bind].
  eexists; eexists; split; [reflexivity|].
  unfold InterleaveStereoCompressionModel.get_left_right_codes,
    InterleaveStereoCompressionModel.interleaved_shape,
    InterleaveStereoCompressionModel.interleaved_layout.
  destruct (InterleaveStereoCompressionModel.per_timestep self).
  - split; [reflexivity|]. split.
    + intros b k i. apply layout_b_k_tc; assumption.
    + rewrite rearrange_b_k_tc_inverse by assumption. reflexivity.
  - split; [reflexivity|]. split.
    + intros b i. apply layout_b_kc_t; assumption.
    + rewrite rearrange_b_kc_t_inverse by assumption. reflexivity.
Qed.

Lemma interleave_roundtrip_witness :
  let l := mkT3 1 3 3 [[[1; 2; 3]; [2; 3; 4]; [3; 4; 5]]] in
  let r := mkT3 1 3 3 [[[4; 5; 6]; [5; 6; 7]; [6; 7; 8]]] in
  (wf3 l /\ wf3 r)
  /\ exists codes scales,
       InterleaveStereoCompressionModel.encode Examples.stereo_codebooks
         Examples.stereo_frame = Ok (codes, scales)
       /\ shape3 codes = (1, 6, 3)%nat
       /\ InterleaveStereoCompressionModel.interleaved_layout
            Examples.stereo_codebooks codes l r
       /\ InterleaveStereoCompressionModel.get_left_right_codes
            Examples.stereo_codebooks codes = Ok (l, r).
Proof.
  intros l r.
  assert (Hl : wf3 l) by (repeat constructor).
  assert (Hr : wf3 r) by (repeat constructor).
  split; [split; assumption|].
  apply (interleave_roundtrip Examples.stereo_codebooks Examples.stereo_frame
           l r None None); try reflexivity; try assumption.
  intros s0 s1 E; discriminate E.
Defined.

(** ** The stereo wrapper *)

Section StereoFacts.
Import InterleaveStereoCompressionModel.
Context {R M : Type} `{CompressionModel.API R (Tensor2 R) M}.

Lemma even_of_mod2 (n : nat) : Z.of_nat n mod 2 = 0 -> Nat.even n = true.
Proof.
  intro E. apply Nat.even_spec. exists (Z.to_nat (Z.of_nat n / 2)).
  apply Nat2Z.inj. rewrite Nat2Z.inj_mul, Z2Nat.id.
  - change (Z.of_nat 2) with 2. pose proof (Z.div_mod (Z.of_nat n) 2). lia.
  - apply Z.div_pos; lia.
Qed.

Lemma even_of_double (n : nat) (k : Z) : Z.of_nat n = k * 2 -> Nat.even n = true.
Proof.
  intro E. apply even_of_mod2. rewrite E. apply Z_mod_mult.
Qed.

(** Once the two checks of [decode] pass, de-interleaving is defined. *)
Lemma get_left_right_codes_defined (self : t M) (codes : Tensor3 Z) :
  Z.of_nat (dimT codes) mod num_virtual_steps self = 0 ->
  Z.of_nat (dimK codes) = num_codebooks self ->
  exists l r, get_left_right_codes self codes = Ok (l, r).
Proof.
  unfold num_virtual_steps, num_codebooks, get_left_right_codes.
  unfold rearrange_from_b_k_tc, rearrange_from_b_kc_t.
  destruct (per_timestep self); intros HT HK.
  - rewrite (even_of_mod2 _ HT). cbn [bind chan0 chan1]. eauto.
  - rewrite (even_of_double _ _ HK). cbn [bind chan0 chan1]. eauto.
Qed.

End StereoFacts.

(** C7.  [decode] fails with the assertion on the number of timesteps when
    the time axis is not a multiple of the number of virtual steps, and
    with the assertion on the number of codebooks when the codebook axis
    differs from the reported [num_codebooks]; otherwise it goes on: the
    codes are de-interleaved and, for an absent scale, the result is the
    concatenation of what the wrapped backend decodes from the two
    halves. *)
Theorem decode_validates_shape {R M : Type} `{CompressionModel.API R (Tensor2 R) M}
    (self : InterleaveStereoCompressionModel.t M) (codes : Tensor3 Z)
    (scale : option (Tensor3 R)) :
  let T := Z.of_nat (dimT codes) in
  let K := Z.of_nat (dimK codes) in
  let steps := InterleaveStereoCompressionModel.num_virtual_steps self in
  let width := InterleaveStereoCompressionModel.num_codebooks self in
  (T mod steps <> 0 ->
   InterleaveStereoCompressionModel.decode self codes scale
   = Err (AssertionError InterleaveStereoCompressionModel.timesteps_msg))
  /\ (T mod steps = 0 -> K <> width ->
      InterleaveStereoCompressionModel.decode self codes scale
      = Err (AssertionError InterleaveStereoCompressionModel.codebooks_msg))
  /\ (T mod steps = 0 -> K = width ->
      InterleaveStereoCompressionModel.decode self codes scale
      = InterleaveStereoCompressionModel.decode_channels self codes scale
      /\ exists l r,
           InterleaveStereoCompressionModel.get_left_right_codes self codes = Ok (l, r)
           /\ InterleaveStereoCompressionModel.decode self codes None
              = (audio_c0 <- CompressionModel.decode
                               (InterleaveStereoCompressionModel.model self) l None ;;
                 audio_c1 <- CompressionModel.decode
                               (InterleaveStereoCompressionModel.model self) r None ;;
                 cat_pair audio_c0 audio_c1)).
Proof.
  intros T K steps width. unfold InterleaveStereoCompressionModel.decode.
  fold T K steps width. split; [|split].
  - intro HT. apply Z.eqb_neq in HT. rewrite HT. reflexivity.
  - intros HT HK. apply Z.eqb_eq in HT. apply Z.eqb_neq in HK.
    rewrite HT, HK. reflexivity.
  - intros HT HK.
    destruct (get_left_right_codes_defined self codes HT HK) as (l & r & E).
    apply Z.eqb_eq in HT. apply Z.eqb_eq in HK. rewrite HT, HK.
    split; [reflexivity|].
    exists l, r. split; [exact E|].
    cbn [assert bind]. unfold InterleaveStereoCompressionModel.decode_channels.
    cbn [bind]. rewrite E. reflexivity.
Qed.

Lemma decode_validates_shape_witness :
  InterleaveStereoCompressionModel.decode Examples.stereo_timesteps
    (mkT3 1 3 3 [[[1; 4; 2]; [2; 5; 3]; [3; 6; 4]]]) None
  = Err (AssertionError InterleaveStereoCompressionModel.timesteps_msg).
Proof.
  apply (decode_validates_shape Examples.stereo_timesteps
           (mkT3 1 3 3 [[[1; 4; 2]; [2; 5; 3]; [3; 6; 4]]]) None).
  vm_compute. discriminate.
Defined.

(** C6.  Around a backend with [K] active codebooks and frame rate [F], the
    wrapper reports [2K] codebooks and frame rate [F] when interleaving
    codebooks, [K] codebooks and frame rate [2F] when interleaving
    timesteps. *)
Theorem stereo_reported_rates {R M : Type} `{CompressionModel.API R (Tensor2 R) M}
    (m : M) :
  let K := CompressionModel.num_codebooks m in
  let F := CompressionModel.frame_rate m in
  InterleaveStereoCompressionModel.num_codebooks
    (InterleaveStereoCompressionModel.mk m false) = 2 * K
  /\ (InterleaveStereoCompressionModel.frame_rate
        (InterleaveStereoCompressionModel.mk m false) == F)%Q
  /\ InterleaveStereoCompressionModel.num_codebooks
       (InterleaveStereoCompressionModel.mk m true) = K
  /\ (InterleaveStereoCompressionModel.frame_rate
        (InterleaveStereoCompressionModel.mk m true) == 2 * F)%Q.
Proof.
  intros K F.
  unfold InterleaveStereoCompressionModel.num_codebooks,
    InterleaveStereoCompressionModel.frame_rate,
    InterleaveStereoCompressionModel.num_virtual_steps.
  cbn [InterleaveStereoCompressionModel.per_timestep
         InterleaveStereoCompressionModel.model].
  fold K F. repeat split.
  - lia.
  - change (inject_Z 1) with 1%Q. apply Qmult_1_r.
  - change (inject_Z 2) with 2%Q. apply Qmult_comm.
Qed.

Section StereoScales.
Import InterleaveStereoCompressionModel.
Context {R M : Type} `{CompressionModel.API R (Tensor2 R) M}.

Lemma same_shape2_true (x y : Tensor2 R) :
  same_shape2 x y = true <-> rows2 x = rows2 y /\ cols2 x = cols2 y.
Proof. unfold same_shape2. rewrite andb_true_iff, !Nat.eqb_eq. tauto. Qed.

(** Entry [[b, 0]] of the stacked scales is the left scale of item [b],
    entry [[b, 1]] the right one. *)
Lemma stack_scales_layout (s0 s1 : Tensor2 R) (b : nat) :
  wf2 s0 -> wf2 s1 -> same_shape2 s0 s1 = true ->
  exists scales,
    stack_scales s0 s1 = Ok scales
    /\ shape3 scales = (rows2 s0, 2%nat, cols2 s0)
    /\ row_at scales b 0 = nth_error (cells2 s0) b
    /\ row_at scales b 1 = nth_error (cells2 s1) b.
Proof.
  intros [L0 _] [L1 _] E. unfold stack_scales. rewrite E.
  apply same_shape2_true in E. destruct E as [Er _].
  eexists; split; [reflexivity|]. split; [reflexivity|].
  unfold row_at. cbn [cells]. rewrite nth_error_zip_with.
  assert (Hlen : length (cells2 s0) = length (cells2 s1)) by congruence.
  destruct (nth_error_same_length (cells2 s0) (cells2 s1) b Hlen)
    as [(a & a' & -> & ->)|[-> ->]]; split; reflexivity.
Qed.

(** A present scale passes the check of [decode] only with the shape
    [[B, 2, ...]]. *)
Lemma decode_rejects_scale_shape (self : t M) (codes : Tensor3 Z)
    (scale : Tensor3 R) :
  Z.of_nat (dimT codes) mod num_virtual_steps self = 0 ->
  Z.of_nat (dimK codes) = num_codebooks self ->
  dimB scale <> dimB codes \/ dimK scale <> 2%nat ->
  decode self codes (Some scale)
  = Err (AssertionError ("Scale has unexpected shape: " ++ str_shape3 scale)).
Proof.
  intros HT HK Hs. unfold decode.
  apply Z.eqb_eq in HT. apply Z.eqb_eq in HK. rewrite HT, HK.
  cbn [assert bind]. unfold decode_channels.
  replace ((dimB scale =? dimB codes)%nat && (dimK scale =? 2)%nat) with false;
    [reflexivity|].
  symmetry. apply andb_false_iff.
  destruct Hs as [Hs|Hs]; [left|right]; apply Nat.eqb_neq; exact Hs.
Qed.

End StereoScales.

(** C4, as the code has it.  When the wrapped backend returns a scale for
    each channel, [encode] stacks the two along a new axis in position 1:
    the result has shape [[B, 2, ...]], entry [[b, 0]] being the left and
    entry [[b, 1]] the right scale of item [b]; and [decode] rejects a
    present scale whose axis 0 is not the batch size or whose axis 1 is
    not of size 2. *)
Theorem scales_stacked_on_axis_1 {R M : Type} `{CompressionModel.API R (Tensor2 R) M}
    (self : InterleaveStereoCompressionModel.t M) (x : Tensor3 R)
    (c0 c1 : Tensor3 Z) (s0 s1 : Tensor2 R) :
  dimK x = 2%nat ->
  CompressionModel.encode (InterleaveStereoCompressionModel.model self)
                          (select_channel x 0) = Ok (c0, Some s0) ->
  CompressionModel.encode (InterleaveStereoCompressionModel.model self)
                          (select_channel x 1) = Ok (c1, Some s1) ->
  shape3 c0 = shape3 c1 ->
  wf2 s0 -> wf2 s1 -> same_shape2 s0 s1 = true ->
  (exists codes scales,
     InterleaveStereoCompressionModel.encode self x = Ok (codes, Some scales)
     /\ shape3 scales = (rows2 s0, 2%nat, cols2 s0)
     /\ forall b, row_at scales b 0 = nth_error (cells2 s0) b
                  /\ row_at scales b 1 = nth_error (cells2 s1) b)
  /\ (forall codes scale,
        Z.of_nat (dimT codes)
          mod InterleaveStereoCompressionModel.num_virtual_steps self = 0 ->
        Z.of_nat (dimK codes) = InterleaveStereoCompressionModel.num_codebooks self ->
        dimB scale <> dimB codes \/ dimK scale <> 2%nat ->
        InterleaveStereoCompressionModel.decode self codes (Some scale)
        = Err (AssertionError ("Scale has unexpected shape: " ++ str_shape3 scale))).
Proof.
  intros HC E0 E1 Es W0 W1 Hs. split.
  - rewrite (encode_unfold self x c0 c1 (Some s0) (Some s1) HC E0 E1 Es).
    destruct (stack_scales_layout s0 s1 O W0 W1 Hs) as (scales & Est & Hshape & _).
    rewrite Est. cbn [bind]. eexists; eexists; split; [reflexivity|].
    split; [exact Hshape|]. intro b.
    destruct (stack_scales_layout s0 s1 b W0 W1 Hs) as (scales' & Est' & _ & Hb).
    rewrite Est in Est'. injection Est' as <-. exact Hb.
  - intros codes scale. apply decode_rejects_scale_shape.
Qed.

Lemma scales_stacked_on_axis_1_witness :
  exists codes scales,
    InterleaveStereoCompressionModel.encode Examples.stereo_renormalized
      Examples.stereo_frame = Ok (codes, Some scales)
    /\ shape3 scales = (1, 2, 1)%nat
    /\ forall b, row_at scales b 0 = nth_error [[4]] b
                 /\ row_at scales b 1 = nth_error [[7]] b.
Proof.
  apply (scales_stacked_on_axis_1 Examples.stereo_renormalized Examples.stereo_frame
           (mkT3 1 3 3 [[[0; 0; 0]; [1; 1; 1]; [2; 2; 2]]])
           (mkT3 1 3 3 [[[0; 0; 0]; [1; 1; 1]; [2; 2; 2]]])
           (mkT2 1 1 [[4]]) (mkT2 1 1 [[7]]));
    try reflexivity; repeat constructor.
Defined.

(** The claim C4 as stated fails on a frame with one batch item: the axis
    of size 2 of the scales [encode] returns is axis 1, the leading axis
    being the batch; [decode] takes [scale[0, ...]], the two scales of item
    0, for the left scale and fails on [scale[1, ...]]. *)
Lemma scales_leading_axis_counterexample :
  exists codes scales,
    InterleaveStereoCompressionModel.encode Examples.stereo_renormalized
      Examples.stereo_frame = Ok (codes, Some scales)
    /\ dimB scales = 1%nat
    /\ select_first scales 0 = Ok (mkT2 2 1 [[4]; [7]])
    /\ InterleaveStereoCompressionModel.decode Examples.stereo_renormalized
         codes (Some scales) = Err (IndexError "index out of range").
Proof.
  eexists; eexists. split; [vm_compute; reflexivity|].
  split; [reflexivity|]. split; reflexivity.
Qed.

(** ** The codebook-count policy *)

(** A successful call determines the object it returns. *)
Ltac inv_ok :=
  match goal with
  | E : Ok _ = Ok _ |- _ => injection E as <-
  end.

Lemma py_in_iff (n : Z) (l : list Z) : py_in n l = true <-> In n l.
Proof.
  unfold py_in. rewrite existsb_exists. split.
  - intros (z & Hz & E). apply Z.eqb_eq in E. subst z. exact Hz.
  - intro Hn. exists n. split; [exact Hn|apply Z.eqb_refl].
Qed.

Section Policy.
Context {R : Type}.

Lemma dac_set_num_codebooks (self : DAC.t R) (n : Z) :
  (is_ok (DAC.set_num_codebooks self n) = true <-> 1 <= n <= DAC.total_codebooks self)
  /\ (forall self', DAC.set_num_codebooks self n = Ok self' ->
                    DAC.num_codebooks self' = n
                    /\ DAC.total_codebooks self' = DAC.total_codebooks self)
  /\ (~ 1 <= n <= DAC.total_codebooks self ->
      DAC.set_num_codebooks self n = Err (AssertionError "")).
Proof.
  unfold DAC.set_num_codebooks.
  destruct (Z.leb_spec 1 n) as [H1|H1];
    destruct (Z.leb_spec n (DAC.total_codebooks self)) as [H2|H2];
    cbn [assert bind is_ok]; repeat split; intros; try lia; try discriminate;
    try reflexivity.
  all: inv_ok; reflexivity.
Qed.

Lemma wavtokenizer_set_num_codebooks (self : WavTokenizer.t R) (n : Z) :
  (is_ok (WavTokenizer.set_num_codebooks self n) = true
   <-> 1 <= n <= WavTokenizer.total_codebooks self)
  /\ (~ 1 <= n <= WavTokenizer.total_codebooks self ->
      WavTokenizer.set_num_codebooks self n
      = Err (AssertionError "WavTokenizer only supports 1 codebook")).
Proof.
  unfold WavTokenizer.set_num_codebooks, WavTokenizer.total_codebooks.
  destruct (Z.eqb_spec n 1) as [E|E]; cbn [assert bind is_ok]; repeat split;
    intros; try lia; try discriminate; reflexivity.
Qed.

Lemma hf_set_num_codebooks (self : HFEncodecCompressionModel.t R) (n : Z) :
  let allowed := HFEncodecCompressionModel.possible_num_codebooks self in
  (is_ok (HFEncodecCompressionModel.set_num_codebooks self n) = true <-> In n allowed)
  /\ (forall self', HFEncodecCompressionModel.set_num_codebooks self n = Ok self' ->
                    HFEncodecCompressionModel.num_codebooks self' = n)
  /\ (~ In n allowed ->
      HFEncodecCompressionModel.set_num_codebooks self n
      = Err (ValueError ("Allowed values for num codebooks: "
                         ++ str_int_list allowed))).
Proof.
  intro allowed. unfold HFEncodecCompressionModel.set_num_codebooks. fold allowed.
  pose proof (py_in_iff n allowed) as Hin.
  destruct (py_in n allowed); cbn [negb is_ok]; repeat split; intros;
    try discriminate; try reflexivity.
  - apply Hin; reflexivity.
  - inv_ok; reflexivity.
  - exfalso. tauto.
  - exfalso. apply Bool.diff_false_true. apply Hin. assumption.
Qed.

Lemma sqcodec_set_num_codebooks (self : SQCodec.t R) (n : Z) :
  (is_ok (SQCodec.set_num_codebooks self n) = true <-> 1 <= n)
  /\ (forall self', SQCodec.set_num_codebooks self n = Ok self' ->
                    SQCodec.num_codebooks self' = n
                    /\ SQCodec.total_codebooks self' = n)
  /\ (~ 1 <= n -> SQCodec.set_num_codebooks self n = Err (AssertionError "")).
Proof.
  unfold SQCodec.set_num_codebooks.
  destruct (Z.leb_spec 1 n) as [H1|H1]; cbn [assert bind is_ok]; repeat split;
    intros; try lia; try discriminate; try reflexivity.
  all: inv_ok; reflexivity.
Qed.

End Policy.

(** C3, as the code has it.  [set_num_codebooks(n)] succeeds exactly when
    [1 <= n <= total_codebooks] for DAC and WavTokenizer, and exactly when
    [n] is one of the allowed counts for the HF backend, whose error
    otherwise lists the allowed counts.  The ternary backend SQCodec
    accepts every [n >= 1]: it has one field for the active and the total
    count, and both become [n].  EncodecModel and the stereo wrapper accept
    what the quantizer, or the wrapped backend, accepts. *)
Theorem set_num_codebooks_policy :
  (forall (R : Type) (self : DAC.t R) (n : Z),
      (is_ok (DAC.set_num_codebooks self n) = true
       <-> 1 <= n <= DAC.total_codebooks self)
      /\ (~ 1 <= n <= DAC.total_codebooks self ->
          DAC.set_num_codebooks self n = Err (AssertionError "")))
  /\ (forall (R : Type) (self : WavTokenizer.t R) (n : Z),
         (is_ok (WavTokenizer.set_num_codebooks self n) = true
          <-> 1 <= n <= WavTokenizer.total_codebooks self)
         /\ (~ 1 <= n <= WavTokenizer.total_codebooks self ->
             WavTokenizer.set_num_codebooks self n
             = Err (AssertionError "WavTokenizer only supports 1 codebook")))
  /\ (forall (R : Type) (self : HFEncodecCompressionModel.t R) (n : Z),
         let allowed := HFEncodecCompressionModel.possible_num_codebooks self in
         (is_ok (HFEncodecCompressionModel.set_num_codebooks self n) = true
          <-> In n allowed)
         /\ (~ In n allowed ->
             HFEncodecCompressionModel.set_num_codebooks self n
             = Err (ValueError ("Allowed values for num codebooks: "
                                ++ str_int_list allowed))))
  /\ (forall (R : Type) (self : SQCodec.t R) (n : Z),
         (is_ok (SQCodec.set_num_codebooks self n) = true <-> 1 <= n)
         /\ (forall self', SQCodec.set_num_codebooks self n = Ok self' ->
                           SQCodec.num_codebooks self' = n
                           /\ SQCodec.total_codebooks self' = n)
         /\ (~ 1 <= n -> SQCodec.set_num_codebooks self n = Err (AssertionError "")))
  /\ (forall (R Qz : Type) (Q : BaseQuantizer.API R Qz)
             (self : EncodecModel.t R Qz) (n : Z),
         is_ok (EncodecModel.set_num_codebooks self n)
         = is_ok (BaseQuantizer.set_num_codebooks (EncodecModel.quantizer self) n))
  /\ (forall (R M : Type) (C : CompressionModel.API R (Tensor2 R) M)
             (self : InterleaveStereoCompressionModel.t M) (n : Z),
         is_ok (InterleaveStereoCompressionModel.set_num_codebooks self n)
         = is_ok (CompressionModel.set_num_codebooks
                    (InterleaveStereoCompressionModel.model self) n)).
Proof.
  repeat apply conj.
  - intros R self n. destruct (dac_set_num_codebooks self n) as (H1 & _ & H3).
    split; assumption.
  - intros R self n. apply wavtokenizer_set_num_codebooks.
  - intros R self n allowed.
    destruct (hf_set_num_codebooks self n) as (H1 & _ & H3). split; assumption.
  - intros R self n. apply sqcodec_set_num_codebooks.
  - intros R Qz Q self n. unfold EncodecModel.set_num_codebooks.
    destruct (BaseQuantizer.set_num_codebooks (EncodecModel.quantizer self) n);
      reflexivity.
  - intros R M C self n. unfold InterleaveStereoCompressionModel.set_num_codebooks.
    destruct (CompressionModel.set_num_codebooks
                (InterleaveStereoCompressionModel.model self) n); reflexivity.
Qed.

(** The claim C3 as stated fails on the ternary backend: [SQCodec()] has 4
    codebooks in total and [set_num_codebooks(5)] succeeds. *)
Lemma sqcodec_count_counterexample :
  SQCodec.total_codebooks Examples.toy_sqcodec = 4
  /\ is_ok (SQCodec.set_num_codebooks Examples.toy_sqcodec 5) = true
  /\ ~ (1 <= 5 <= SQCodec.total_codebooks Examples.toy_sqcodec).
Proof.
  split; [reflexivity|]. split; [reflexivity|]. cbn. lia.
Qed.

(** ** The cardinality of the ternary backend *)

(** C8, as the code has it.  The cardinality of an [SQCodec] is its field
    [dim_codebook]: the constructor argument, [19683 = 3^9] by default.
    [set_num_codebooks] leaves it as it is; [set_cardinality(n)] replaces
    it by [n] when [n >= 1] and is rejected otherwise. *)
Theorem sqcodec_cardinality {R : Type} (self : SQCodec.t R) (n : Z) :
  (forall (scalar_codec : ScalarModel R) new_linear sample_rate dim_codebook
          n_codebook bw emb_dim clip_length hidden_dim use_ternary,
      SQCodec.cardinality
        (SQCodec.init scalar_codec new_linear sample_rate dim_codebook n_codebook
                      bw emb_dim clip_length hidden_dim use_ternary)
      = dim_codebook)
  /\ (forall (scalar_codec : ScalarModel R) new_linear,
         SQCodec.cardinality (SQCodec.default scalar_codec new_linear) = 3 ^ 9)
  /\ (forall self', SQCodec.set_num_codebooks self n = Ok self' ->
                    SQCodec.cardinality self' = SQCodec.cardinality self)
  /\ (1 <= n -> exists self', SQCodec.set_cardinality self n = Ok self'
                              /\ SQCodec.cardinality self' = n)
  /\ (n < 1 -> SQCodec.set_cardinality self n = Err (AssertionError "")).
Proof.
  repeat apply conj.
  - reflexivity.
  - reflexivity.
  - unfold SQCodec.set_num_codebooks. intros self'.
    destruct (1 <=? n); cbn [assert bind]; intro E; [|discriminate].
    injection E as <-. reflexivity.
  - intro Hn. unfold SQCodec.set_cardinality. apply Z.leb_le in Hn. rewrite Hn.
    cbn [assert bind]. eexists; split; reflexivity.
  - intro Hn. unfold SQCodec.set_cardinality. apply Z.leb_gt in Hn. rewrite Hn.
    reflexivity.
Qed.

Lemma sqcodec_cardinality_witness :
  1 <= 27
  /\ exists self', SQCodec.set_cardinality Examples.toy_sqcodec 27 = Ok self'
                   /\ SQCodec.cardinality self' = 27.
Proof.
  split; [lia|].
  apply (sqcodec_cardinality Examples.toy_sqcodec 27). lia.
Defined.

(** The claim C8 as stated fails: [set_cardinality(5)] on [SQCodec()]
    changes the cardinality from 19683 to 5. *)
Lemma sqcodec_cardinality_counterexample :
  SQCodec.cardinality Examples.toy_sqcodec = 19683
  /\ exists self', SQCodec.set_cardinality Examples.toy_sqcodec 5 = Ok self'
                   /\ SQCodec.cardinality self' = 5
                   /\ SQCodec.cardinality self' <> SQCodec.cardinality Examples.toy_sqcodec.
Proof.
  split; [reflexivity|]. eexists. split; [reflexivity|].
  split; [reflexivity|]. cbn. discriminate.
Qed.

(** ** Scales in [decode] *)

Section ScaleChecks.
Context {R : Type} `{Sample R}.

Lemma dac_scale (self : DAC.t R) (x : Tensor3 R) (codes : Tensor3 Z)
    (s : Tensor2 R) :
  (forall r, DAC.encode self x = Ok r -> snd r = None)
  /\ DAC.decode self codes (Some s) = Err (AssertionError "").
Proof.
  split; [|reflexivity]. unfold DAC.encode. intros r.
  destruct (dac_encode (DAC.model self) x (DAC.n_quantizers self)); cbn [bind];
    intro E; [|discriminate].
  inv_ok. reflexivity.
Qed.

Lemma sqcodec_scale (self : SQCodec.t R) (x : Tensor3 R) (codes : Tensor3 Z)
    (s : Tensor2 R) :
  (forall r, SQCodec.encode self x = Ok r -> snd r = None)
  /\ SQCodec.decode self codes (Some s) = Err (AssertionError "").
Proof.
  split; [|reflexivity]. unfold SQCodec.encode. intros r.
  destruct (sm_encode (SQCodec.scalar_codec self) x); cbn [bind];
    [|discriminate].
  destruct (SQCodec.encode_latent self a); cbn [bind]; intro E; [|discriminate].
  inv_ok. reflexivity.
Qed.

Lemma wavtokenizer_scale (self : WavTokenizer.t R) (x : Tensor3 R)
    (codes : Tensor3 Z) (s : Tensor2 R) :
  (forall r, WavTokenizer.encode self x = Ok r -> snd r = None)
  /\ WavTokenizer.decode self codes (Some s) = Err (AssertionError "").
Proof.
  split; [|reflexivity]. unfold WavTokenizer.encode. intros r.
  destruct (wt_encode (WavTokenizer.model self) x); cbn [bind]; intro E;
    [|discriminate].
  inv_ok. reflexivity.
Qed.

Context {Qz : Type} `{BaseQuantizer.API R Qz}.

(** The scale [encode] returns is present exactly when the model
    renormalizes. *)
Lemma encodec_encode_scale (self : EncodecModel.t R Qz) (x : Tensor3 R)
    (r : Tensor3 Z * option (Tensor2 R)) :
  EncodecModel.encode self x = Ok r ->
  (snd r = None <-> EncodecModel.renormalize self = false).
Proof.
  unfold EncodecModel.encode, EncodecModel.preprocess.
  destruct (EncodecModel.renormalize self).
  - destruct (EncodecModel.encoder self _); cbn [bind]; [|discriminate].
    destruct (BaseQuantizer.encode _ _); cbn [bind]; intro E; [|discriminate].
    inv_ok. cbn [snd]. split; discriminate.
  - destruct (EncodecModel.encoder self _); cbn [bind]; [|discriminate].
    destruct (BaseQuantizer.encode _ _); cbn [bind]; intro E; [|discriminate].
    inv_ok. cbn [snd]. split; reflexivity.
Qed.

Lemma encodec_rejects_scale (self : EncodecModel.t R Qz) (codes : Tensor3 Z)
    (s : Tensor2 R) :
  EncodecModel.renormalize self = false ->
  raises (EncodecModel.decode self codes (Some s))
  /\ (forall emb out,
         EncodecModel.decode_latent self codes = Ok emb ->
         EncodecModel.decoder self emb = Ok out ->
         EncodecModel.decode self codes (Some s) = Err (AssertionError "")).
Proof.
  intro Hr. unfold raises, EncodecModel.decode, EncodecModel.postprocess.
  rewrite Hr. split.
  - destruct (EncodecModel.decode_latent self codes) as [emb|e]; cbn [bind];
      [|eauto].
    destruct (EncodecModel.decoder self emb) as [out|e]; cbn [bind assert]; eauto.
  - intros emb out -> . cbn [bind]. intros ->. reflexivity.
Qed.

(** An absent scale passes through [decode]: the result is that of the
    quantizer and the decoder. *)
Lemma encodec_absent_scale (self : EncodecModel.t R Qz) (codes : Tensor3 Z) :
  EncodecModel.decode self codes None
  = (emb <- BaseQuantizer.decode (EncodecModel.quantizer self) codes ;;
     EncodecModel.decoder self emb).
Proof.
  unfold EncodecModel.decode, EncodecModel.decode_latent, EncodecModel.postprocess.
  destruct (BaseQuantizer.decode (EncodecModel.quantizer self) codes) as [emb|e];
    cbn [bind]; [|reflexivity].
  destruct (EncodecModel.decoder self emb); reflexivity.
Qed.

End ScaleChecks.

(** C9, as the code has it.  The backends that never return a scale from
    [encode] (DAC, SQCodec, WavTokenizer, and EncodecModel built without
    renormalization) reject every call of [decode] with a present scale,
    the first three by their opening assertion.  No backend rejects an
    absent scale: for an EncodecModel, renormalizing or not, [decode] with
    no scale is the quantizer's decoding followed by the decoder. *)
Theorem decode_scale_checks {R Qz : Type} `{Sample R} `{BaseQuantizer.API R Qz}
    (x : Tensor3 R) (codes : Tensor3 Z) (s : Tensor2 R) :
  (forall self : DAC.t R,
      (forall r, DAC.encode self x = Ok r -> snd r = None)
      /\ DAC.decode self codes (Some s) = Err (AssertionError ""))
  /\ (forall self : SQCodec.t R,
         (forall r, SQCodec.encode self x = Ok r -> snd r = None)
         /\ SQCodec.decode self codes (Some s) = Err (AssertionError ""))
  /\ (forall self : WavTokenizer.t R,
         (forall r, WavTokenizer.encode self x = Ok r -> snd r = None)
         /\ WavTokenizer.decode self codes (Some s) = Err (AssertionError ""))
  /\ (forall self : EncodecModel.t R Qz,
         EncodecModel.renormalize self = false ->
         (forall r, EncodecModel.encode self x = Ok r -> snd r = None)
         /\ raises (EncodecModel.decode self codes (Some s))
         /\ (forall emb out,
                EncodecModel.decode_latent self codes = Ok emb ->
                EncodecModel.decoder self emb = Ok out ->
                EncodecModel.decode self codes (Some s) = Err (AssertionError "")))
  /\ (forall self : EncodecModel.t R Qz,
         EncodecModel.decode self codes None
         = (emb <- BaseQuantizer.decode (EncodecModel.quantizer self) codes ;;
            EncodecModel.decoder self emb)).
Proof.
  repeat apply conj.
  - intro self. apply dac_scale.
  - intro self. apply sqcodec_scale.
  - intro self. apply wavtokenizer_scale.
  - intros self Hr. split.
    + intros r E. apply (encodec_encode_scale self x r E). exact Hr.
    + apply encodec_rejects_scale. exact Hr.
  - intro self. apply encodec_absent_scale.
Qed.

Lemma decode_scale_checks_witness :
  EncodecModel.renormalize (Examples.toy_encodec false) = false
  /\ raises (EncodecModel.decode (Examples.toy_encodec false)
               (mkT3 1 3 3 [[[1; 2; 3]; [2; 3; 4]; [3; 4; 5]]])
               (Some (mkT2 1 1 [[4]]))).
Proof.
  split; [reflexivity|].
  apply (decode_scale_checks
           (mkT3 1 1 3 [[[1; 2; 3]]])
           (mkT3 1 3 3 [[[1; 2; 3]; [2; 3; 4]; [3; 4; 5]]])
           (mkT2 1 1 [[4]])).
  reflexivity.
Defined.

(** The claim C9 as stated fails on an EncodecModel that renormalizes:
    every successful [encode] returns a scale, and [decode] with no scale
    succeeds. *)
Lemma absent_scale_counterexample :
  (forall x r, EncodecModel.encode (Examples.toy_encodec true) x = Ok r ->
               snd r <> None)
  /\ EncodecModel.encode (Examples.toy_encodec true) (mkT3 1 1 3 [[[3; 6; 9]]])
     = Ok (mkT3 1 3 3 [[[0; 0; 0]; [1; 1; 1]; [2; 2; 2]]], Some (mkT2 1 1 [[10]]))
  /\ EncodecModel.decode (Examples.toy_encodec true)
       (mkT3 1 3 3 [[[0; 0; 0]; [1; 1; 1]; [2; 2; 2]]]) None
     = Ok (mkT3 1 1 3 [[[0; 0; 0]]]).
Proof.
  split; [|split; reflexivity].
  intros x r E Hn. apply (encodec_encode_scale _ x r E) in Hn. discriminate Hn.
Qed.

(** ** [SQCodec.encode_embedding] *)

Section EncodeEmbedding.
Context {R : Type} `{Sample R}.

Lemma in_tokens_unbound (codes : Tensor3 Z) :
  load_name [("self", None); ("codes", Some codes); ("in_embs", None);
             ("i", None)]%string "in_tokens"
  = Err (NameError "in_tokens").
Proof. reflexivity. Qed.

Lemma encode_embedding_loop (self : SQCodec.t R) (codes : Tensor3 Z) :
  1 <= SQCodec.num_codebooks self ->
  SQCodec.encode_embedding self codes = Err (NameError "in_tokens").
Proof.
  intro Hn. unfold SQCodec.encode_embedding, range.
  destruct (Z.to_nat (SQCodec.num_codebooks self)) as [|k] eqn:E; [lia|].
  cbn [seq mapM]. rewrite in_tokens_unbound. reflexivity.
Qed.

Lemma encode_embedding_empty (self : SQCodec.t R) (codes : Tensor3 Z) :
  SQCodec.num_codebooks self < 1 ->
  SQCodec.encode_embedding self codes
  = Err (RuntimeError "stack expects a non-empty TensorList").
Proof.
  intro Hn. unfold SQCodec.encode_embedding, range.
  replace (Z.to_nat (SQCodec.num_codebooks self)) with O by lia. reflexivity.
Qed.

End EncodeEmbedding.

(** C10.  [encode_embedding] raises on every input: with at least one
    codebook the first pass of its loop reads [in_tokens], a name bound
    neither in the function nor in the module, which is a [NameError]; with
    no codebook the loop is skipped and stacking the empty list fails.
    It never returns an embedding. *)
Theorem encode_embedding_raises {R : Type} `{Sample R}
    (self : SQCodec.t R) (codes : Tensor3 Z) :
  raises (SQCodec.encode_embedding self codes)
  /\ (forall embedding, SQCodec.encode_embedding self codes <> Ok embedding)
  /\ (1 <= SQCodec.num_codebooks self ->
      SQCodec.encode_embedding self codes = Err (NameError "in_tokens")).
Proof.
  assert (Hr : raises (SQCodec.encode_embedding self codes)).
  { destruct (Z_lt_le_dec (SQCodec.num_codebooks self) 1) as [Hn|Hn].
    - eexists. apply encode_embedding_empty. exact Hn.
    - eexists. apply encode_embedding_loop. exact Hn. }
  split; [exact Hr|]. split.
  - intros embedding E. destruct Hr as [e He]. congruence.
  - apply encode_embedding_loop.
Qed.

Lemma encode_embedding_raises_witness :
  1 <= SQCodec.num_codebooks Examples.toy_sqcodec
  /\ SQCodec.encode_embedding Examples.toy_sqcodec
       (mkT3 1 4 2 [[[1; 2]; [3; 4]; [5; 6]; [7; 8]]])
     = Err (NameError "in_tokens").
Proof.
  split; [cbn; lia|].
  apply (encode_embedding_raises Examples.toy_sqcodec
           (mkT3 1 4 2 [[[1; 2]; [3; 4]; [5; 6]; [7; 8]]])).
  cbn; lia.
Defined.

(** * Further properties *)

(** ** The HF backend: construction and the allowed counts *)

Section AllowedCounts.

Lemma fold_max_ge (l : list Z) (z : Z) : z <= fold_left Z.max l z.
Proof.
  revert z. induction l as [|a l IH]; intro z; cbn [fold_left]; [lia|].
  specialize (IH (Z.max z a)). lia.
Qed.

Lemma fold_max_upper (l : list Z) (z n : Z) : In n l -> n <= fold_left Z.max l z.
Proof.
  revert z. induction l as [|a l IH]; intros z Hin; [contradiction|].
  cbn [fold_left]. destruct Hin as [->|Hin].
  - pose proof (fold_max_ge l (Z.max z n)). lia.
  - apply IH. exact Hin.
Qed.

Lemma fold_max_in (l : list Z) (z : Z) :
  fold_left Z.max l z = z \/ In (fold_left Z.max l z) l.
Proof.
  revert z. induction l as [|a l IH]; intro z; cbn [fold_left]; [left; reflexivity|].
  destruct (IH (Z.max z a)) as [E|Hin].
  - rewrite E. destruct (Z.max_spec z a) as [[_ ->]|[_ ->]];
      [right; left|left]; reflexivity.
  - right. right. exact Hin.
Qed.

Lemma py_max_spec (l : list Z) (m : Z) :
  py_max l = Ok m -> In m l /\ forall n, In n l -> n <= m.
Proof.
  destruct l as [|z l]; [discriminate|]. cbn [py_max]. intro E. injection E as <-.
  split.
  - destruct (fold_max_in l z) as [->|Hin]; [left; reflexivity|right; exact Hin].
  - intros n [<-|Hin]; [apply fold_max_ge|apply fold_max_upper; exact Hin].
Qed.

(** [l.index(n)] is the first position of [n]. *)
Lemma py_index_spec (l : list Z) (n : Z) :
  In n l ->
  exists i, py_index l n = Ok i /\ nth_error l i = Some n
            /\ forall j, (j < i)%nat -> nth_error l j <> Some n.
Proof.
  induction l as [|z l IH]; intro Hin; [contradiction|].
  cbn [py_index]. destruct (Z.eqb_spec z n) as [->|Hne].
  - exists O. repeat split. intros j Hj. lia.
  - destruct Hin as [E|Hin]; [contradiction|].
    destruct (IH Hin) as (i & -> & Hnth & Hfirst). exists (S i). cbn [bind].
    repeat split; [exact Hnth|]. intros [|j] Hj; cbn [nth_error].
    + intro E. injection E as E. contradiction.
    + apply Hfirst. lia.
Qed.

End AllowedCounts.

Section HFCalls.
Context {R : Type}.

Lemma configure_cons {M : Type} (set : M -> Z -> result M) (m : M) (n : Z)
    (ns : list Z) :
  configure set m (n :: ns)
  = configure set (match set m n with Ok m' => m' | Err _ => m end) ns.
Proof. reflexivity. Qed.

Lemma hf_set_result (self self' : HFEncodecCompressionModel.t R) (n : Z) :
  HFEncodecCompressionModel.set_num_codebooks self n = Ok self' ->
  self' = HFEncodecCompressionModel.mk
            (HFEncodecCompressionModel.model self)
            (HFEncodecCompressionModel.possible_num_codebooks self) n
  /\ In n (HFEncodecCompressionModel.possible_num_codebooks self).
Proof.
  unfold HFEncodecCompressionModel.set_num_codebooks.
  destruct (py_in n (HFEncodecCompressionModel.possible_num_codebooks self)) eqn:En;
    cbn [negb]; intro E; [|discriminate].
  injection E as <-. split; [reflexivity|apply py_in_iff; exact En].
Qed.

(** No call of [set_num_codebooks] takes the active count out of the list
    of possible counts, nor changes the list. *)
Lemma hf_configure_invariant (self : HFEncodecCompressionModel.t R) (ns : list Z) :
  In (HFEncodecCompressionModel.num_codebooks self)
     (HFEncodecCompressionModel.possible_num_codebooks self) ->
  HFEncodecCompressionModel.possible_num_codebooks
    (configure HFEncodecCompressionModel.set_num_codebooks self ns)
  = HFEncodecCompressionModel.possible_num_codebooks self
  /\ HFEncodecCompressionModel.model
       (configure HFEncodecCompressionModel.set_num_codebooks self ns)
     = HFEncodecCompressionModel.model self
  /\ In (HFEncodecCompressionModel.num_codebooks
           (configure HFEncodecCompressionModel.set_num_codebooks self ns))
        (HFEncodecCompressionModel.possible_num_codebooks self).
Proof.
  revert self. induction ns as [|n ns IH]; intros self Hin.
  - repeat split. exact Hin.
  - rewrite configure_cons.
    destruct (HFEncodecCompressionModel.set_num_codebooks self n) as [self'|e] eqn:E.
    + destruct (hf_set_result self self' n E) as [-> Hn].
      exact (IH (HFEncodecCompressionModel.mk
                   (HFEncodecCompressionModel.model self)
                   (HFEncodecCompressionModel.possible_num_codebooks self) n) Hn).
    + apply IH. exact Hin.
Qed.

End HFCalls.

Section HFConstruction.
Context {R : Type}.

Lemma all_deltas_false (ncs : list Q) :
  forallb (fun d => negb (Qeq_bool d 0))
          (map (fun nc => (nc - inject_Z (py_int nc))%Q) ncs) = false
  <-> Exists whole ncs.
Proof.
  induction ncs as [|nc ncs IH]; cbn [map forallb].
  - split; [discriminate|]. intro E. inversion E.
  - rewrite andb_false_iff, IH, Exists_cons. unfold whole.
    rewrite negb_false_iff. split; intros [Hq|Hq]; auto; left.
    + apply Qeq_bool_eq. exact Hq.
    + apply Qeq_eq_bool. exact Hq.
Qed.

Lemma hf_init_ok (model : HFModel R) (ncs : list Q) (repr : list Q -> string)
    (self : HFEncodecCompressionModel.t R) :
  HFEncodecCompressionModel.init model ncs repr = Ok self ->
  HFEncodecCompressionModel.possible_num_codebooks self = map py_int ncs
  /\ HFEncodecCompressionModel.model self = model
  /\ py_max (map py_int ncs) = Ok (HFEncodecCompressionModel.num_codebooks self).
Proof.
  unfold HFEncodecCompressionModel.init.
  destruct (Qle_bool _ _); cbn [assert bind]; [|discriminate].
  destruct (py_max (map py_int ncs)) as [top|e] eqn:Emax; cbn [bind]; [|discriminate].
  intro E. destruct (hf_set_result _ _ _ E) as [-> _]. repeat split.
Qed.

End HFConstruction.

(** X1.  The check of the HF adapter's constructor on the codebook counts
    it computed passes as soon as one of them is a whole number, and fails
    when none is, which includes the empty list.  When it passes, the new
    object allows the truncated counts, has the largest one active, which
    is also its [total_codebooks], and allows no count above it. *)
Theorem hf_init_largest {R : Type} (model : HFModel R) (ncs : list Q)
    (repr : list Q -> string) :
  (~ Exists whole ncs ->
   HFEncodecCompressionModel.init model ncs repr
   = Err (AssertionError
            (repr (map (fun nc => (nc - inject_Z (py_int nc))%Q) ncs))))
  /\ (Exists whole ncs ->
      exists self,
        HFEncodecCompressionModel.init model ncs repr = Ok self
        /\ HFEncodecCompressionModel.possible_num_codebooks self = map py_int ncs
        /\ HFEncodecCompressionModel.num_codebooks self
           = HFEncodecCompressionModel.total_codebooks self
        /\ In (HFEncodecCompressionModel.num_codebooks self) (map py_int ncs)
        /\ forall n, In n (map py_int ncs) ->
                     n <= HFEncodecCompressionModel.total_codebooks self).
Proof.
  pose proof (all_deltas_false ncs) as Hall. unfold HFEncodecCompressionModel.init.
  destruct (forallb _ _).
  - split; [reflexivity|]. intro He. apply Hall in He. discriminate.
  - split; [intro Hn; exfalso; apply Hn, Hall; reflexivity|]. intros He.
    change (Qle_bool 0 (1 # 1000)) with true. cbn [assert bind].
    destruct (py_max (map py_int ncs)) as [top|e] eqn:Emax.
    + cbn [bind]. destruct (py_max_spec _ top Emax) as [Hin Hup].
      unfold HFEncodecCompressionModel.set_num_codebooks.
      cbn [HFEncodecCompressionModel.possible_num_codebooks
             HFEncodecCompressionModel.model].
      apply py_in_iff in Hin. rewrite Hin. cbn [negb].
      eexists. split; [reflexivity|].
      unfold HFEncodecCompressionModel.num_codebooks,
        HFEncodecCompressionModel.total_codebooks.
      cbn [HFEncodecCompressionModel.possible_num_codebooks
             HFEncodecCompressionModel._num_codebooks].
      rewrite Emax. repeat split; [apply py_in_iff; exact Hin|exact Hup].
    + destruct ncs; [inversion He|discriminate].
Qed.

Lemma hf_init_largest_witness :
  Exists whole [2; 7.5; 4]%Q
  /\ exists self,
       HFEncodecCompressionModel.init
         (mkHFModel [1.5; 6; 3]%Q 1 [8; 5; 4; 2]%positive 24000 1024
                    (fun (_ : Tensor3 Z) _ => Err (RuntimeError ""))
                    (fun _ _ => Err (RuntimeError ""))
                    (fun _ => Err (RuntimeError "")))
         [2; 7.5; 4]%Q (fun _ => EmptyString) = Ok self
       /\ HFEncodecCompressionModel.possible_num_codebooks self = [2; 7; 4]
       /\ HFEncodecCompressionModel.num_codebooks self
          = HFEncodecCompressionModel.total_codebooks self
       /\ In (HFEncodecCompressionModel.num_codebooks self) [2; 7; 4]
       /\ forall n, In n [2; 7; 4] ->
                    n <= HFEncodecCompressionModel.total_codebooks self.
Proof.
  assert (Hw : Exists whole [2; 7.5; 4]%Q) by (left; reflexivity).
  split; [exact Hw|].
  exact (proj2 (hf_init_largest _ [2; 7.5; 4]%Q (fun _ => EmptyString)) Hw).
Defined.


(** X2.  After construction and any sequence of [set_num_codebooks] calls,
    failed ones included, the active count of the HF adapter is one of the
    allowed counts; so [encode] finds it in the list and encodes at the
    target bandwidth of its first position: whenever the wrapped model
    returns one frame of codes and one scale, [encode] returns them. *)
Theorem hf_encode_bandwidth {R : Type} (model : HFModel R) (ncs : list Q)
    (repr : list Q -> string) (ns : list Z)
    (self0 : HFEncodecCompressionModel.t R) (x : Tensor3 R) :
  HFEncodecCompressionModel.init model ncs repr = Ok self0 ->
  length (hf_target_bandwidths model) = length ncs ->
  let self := configure HFEncodecCompressionModel.set_num_codebooks self0 ns in
  let allowed := map py_int ncs in
  In (HFEncodecCompressionModel.num_codebooks self) allowed
  /\ exists i bandwidth,
       py_index allowed (HFEncodecCompressionModel.num_codebooks self) = Ok i
       /\ nth_error (hf_target_bandwidths model) i = Some bandwidth
       /\ forall codes scale,
            hf_encode model x bandwidth = Ok ([codes], [scale]) ->
            HFEncodecCompressionModel.encode self x = Ok (codes, scale).
Proof.
  intros Hinit Hlen self allowed.
  destruct (hf_init_ok model ncs repr self0 Hinit) as (Hp0 & Hm0 & Hmax).
  fold allowed in Hp0, Hmax.
  destruct (py_max_spec allowed _ Hmax) as [Hin0 _].
  destruct (hf_configure_invariant self0 ns) as (Hp & Hm & Hin);
    [rewrite Hp0; exact Hin0|].
  fold self in Hp, Hm, Hin. rewrite Hp0 in Hp, Hin. rewrite Hm0 in Hm.
  split; [exact Hin|].
  destruct (py_index_spec allowed _ Hin) as (i & Ei & Hnth & _).
  assert (Hi : (i < length (hf_target_bandwidths model))%nat).
  { rewrite Hlen, <- (length_map py_int ncs). apply nth_error_Some.
    fold allowed. rewrite Hnth. discriminate. }
  destruct (nth_error (hf_target_bandwidths model) i) as [bandwidth|] eqn:Ebw;
    [|apply nth_error_None in Ebw; lia].
  exists i, bandwidth. split; [exact Ei|]. split; [exact Ebw|].
  intros codes scale Eenc. unfold HFEncodecCompressionModel.encode.
  rewrite Hp, Hm, Ei. cbn [bind]. rewrite Ebw. cbn [bind]. rewrite Eenc.
  reflexivity.
Qed.

Lemma hf_encode_bandwidth_witness :
  let model := mkHFModel [1.5; 6; 3]%Q 1 [8; 5; 4; 2]%positive 24000 1024
                 (fun (x : Tensor3 Z) bw =>
                    Ok ([mkT3 1 2 1 [[[7]; [9]]]], [@None (Tensor2 Z)]))
                 (fun _ _ => Err (RuntimeError ""))
                 (fun _ => Err (RuntimeError "")) in
  exists self0,
    HFEncodecCompressionModel.init model [2; 8; 4]%Q (fun _ => EmptyString) = Ok self0
    /\ In (HFEncodecCompressionModel.num_codebooks
             (configure HFEncodecCompressionModel.set_num_codebooks self0 [4; 5]))
          [2; 8; 4].
Proof.
  intro model. eexists. split; [reflexivity|].
  apply (hf_encode_bandwidth model [2; 8; 4]%Q (fun _ => EmptyString) [4; 5] _
           (mkT3 1 1 1 [[[0]]]));
    reflexivity.
Defined.

(** ** DAC: the active count and the truncation of the codes *)

Section DacCalls.
Context {R : Type}.

Lemma last_cons {A : Type} (a d : A) (l : list A) : last (a :: l) d = last l a.
Proof.
  revert a d. induction l as [|b l IH]; intros a d; [reflexivity|].
  change (last (a :: b :: l) d) with (last (b :: l) d).
  rewrite (IH b d), (IH b a). reflexivity.
Qed.

Lemma last_Forall {A : Type} (P : A -> Prop) (l : list A) (d : A) :
  Forall P l -> P d -> P (last l d).
Proof.
  intro Hl. revert d. induction Hl as [|a l Ha _ IH]; intros d Hd; [exact Hd|].
  rewrite last_cons. apply IH. exact Ha.
Qed.

Lemma dac_set_step (model : DacModel R) (a n : Z) :
  match DAC.set_num_codebooks (DAC.mk model a) n with
  | Ok m' => m'
  | Err _ => DAC.mk model a
  end
  = DAC.mk model (if dac_in_range model n then n else a).
Proof.
  unfold DAC.set_num_codebooks, dac_in_range, DAC.total_codebooks.
  cbn [DAC.model]. destruct (1 <=? n); cbn [assert bind andb]; [|reflexivity].
  destruct (n <=? dac_n_codebooks model); reflexivity.
Qed.

Lemma dac_configure (model : DacModel R) (a : Z) (ns : list Z) :
  configure DAC.set_num_codebooks (DAC.mk model a) ns
  = DAC.mk model (last (filter (dac_in_range model) ns) a).
Proof.
  revert a. induction ns as [|n ns IH]; intro a; [reflexivity|].
  rewrite configure_cons, dac_set_step, IH. cbn [filter].
  destruct (dac_in_range model n); [rewrite last_cons|]; reflexivity.
Qed.

End DacCalls.

(** X3.  After [DAC(...)] and any sequence of [set_num_codebooks] calls,
    the number of active codebooks is the argument of the last call that
    lay between 1 and the model's number of codebooks, or that number
    itself when no call did; the total never changes, and the active count
    stays between 1 and the total for a model with at least one
    codebook. *)
Theorem dac_active_count {R : Type} (model : DacModel R) (ns : list Z) :
  let self := configure DAC.set_num_codebooks (DAC.init model) ns in
  DAC.total_codebooks self = dac_n_codebooks model
  /\ DAC.num_codebooks self
     = last (filter (fun n => (1 <=? n) && (n <=? dac_n_codebooks model)) ns)
            (dac_n_codebooks model)
  /\ (1 <= dac_n_codebooks model ->
      1 <= DAC.num_codebooks self <= DAC.total_codebooks self).
Proof.
  intro self. unfold self, DAC.init. rewrite dac_configure.
  unfold DAC.total_codebooks, DAC.num_codebooks. cbn [DAC.model DAC.n_quantizers].
  split; [reflexivity|]. split; [reflexivity|]. intro Htotal.
  apply (last_Forall (fun n => 1 <= n <= dac_n_codebooks model)); [|lia].
  apply Forall_forall. intros n Hn. apply filter_In in Hn. destruct Hn as [_ Hn].
  apply andb_true_iff in Hn. rewrite !Z.leb_le in Hn. exact Hn.
Qed.

Lemma dac_active_count_witness :
  let model := mkDacModel 44100 512 1024 9
                 (fun (x : Tensor3 Z) n => Err (RuntimeError ""))
                 (fun _ => Err (RuntimeError ""))
                 (fun _ => Err (RuntimeError "")) in
  1 <= dac_n_codebooks model
  /\ 1 <= DAC.num_codebooks
            (configure DAC.set_num_codebooks (DAC.init model) [4; 12; 0])
       <= DAC.total_codebooks
            (configure DAC.set_num_codebooks (DAC.init model) [4; 12; 0]).
Proof.
  intro model. split; [cbn; lia|].
  apply (dac_active_count model [4; 12; 0]). cbn; lia.
Defined.

Section DacEncode.
Context {R : Type}.

Lemma slice_upto_nonneg {A : Type} (n : Z) (l : list A) :
  0 <= n -> slice_upto n l = firstn (Z.to_nat n) l.
Proof.
  intro Hn. unfold slice_upto.
  replace (0 <=? n) with true by (symmetry; apply Z.leb_le; exact Hn). reflexivity.
Qed.

Lemma wf3_narrow_codebooks (codes : Tensor3 Z) (n : Z) :
  0 <= n -> wf3 codes ->
  wf3 (narrow_codebooks codes n)
  /\ shape3 (narrow_codebooks codes n)
     = (dimB codes, Nat.min (Z.to_nat n) (dimK codes), dimT codes).
Proof.
  intros Hn [HB Hc]. unfold narrow_codebooks, wf3, shape3.
  cbn [dimB dimK dimT cells]. rewrite slice_upto_nonneg by exact Hn.
  rewrite length_firstn, length_seq. repeat split.
  - rewrite length_map. exact HB.
  - apply Forall_map. eapply Forall_impl; [|exact Hc]. intros item [HK HT].
    rewrite slice_upto_nonneg by exact Hn. split.
    + rewrite length_firstn, HK. reflexivity.
    + rewrite Forall_forall in *. intros row Hrow. apply HT.
      apply (In_block (Z.to_nat n) 0). exact Hrow.
Qed.

Lemma row_at_narrow_codebooks (codes : Tensor3 Z) (n : Z) (b k : nat) :
  0 <= n -> (k < Z.to_nat n)%nat ->
  row_at (narrow_codebooks codes n) b k = row_at codes b k.
Proof.
  intros Hn Hk. unfold row_at, narrow_codebooks. cbn [cells].
  rewrite nth_error_map. destruct (nth_error (cells codes) b) as [item|];
    [|reflexivity].
  cbn [option_map]. rewrite slice_upto_nonneg by exact Hn.
  rewrite nth_error_firstn.
  replace (k <? Z.to_nat n)%nat with true by (symmetry; apply Nat.ltb_lt; exact Hk).
  reflexivity.
Qed.

End DacEncode.

(** X4.  [DAC.encode] keeps the first [n_quantizers] codebooks of what the
    codec returns and never returns a scale: the codes have
    [min(n_quantizers, K)] codebooks, each equal to the codec's codebook
    of the same index. *)
Theorem dac_encode_truncates {R : Type} (self : DAC.t R) (x : Tensor3 R)
    (codes : Tensor3 Z) :
  dac_encode (DAC.model self) x (DAC.n_quantizers self) = Ok codes ->
  wf3 codes -> 0 <= DAC.n_quantizers self ->
  exists out,
    DAC.encode self x = Ok (out, None)
    /\ wf3 out
    /\ shape3 out = (dimB codes,
                     Nat.min (Z.to_nat (DAC.n_quantizers self)) (dimK codes),
                     dimT codes)
    /\ forall b k, (k < Z.to_nat (DAC.n_quantizers self))%nat ->
                   row_at out b k = row_at codes b k.
Proof.
  intros E Hwf Hn. unfold DAC.encode. rewrite E. cbn [bind].
  eexists. split; [reflexivity|].
  destruct (wf3_narrow_codebooks codes _ Hn Hwf) as [Hw Hs].
  split; [exact Hw|]. split; [exact Hs|].
  intros b k Hk. apply row_at_narrow_codebooks; assumption.
Qed.

Lemma dac_encode_truncates_witness :
  let model := mkDacModel 44100 512 1024 9
                 (fun (x : Tensor3 Z) n => Ok (mkT3 1 3 2 [[[1; 2]; [3; 4]; [5; 6]]]))
                 (fun _ => Err (RuntimeError ""))
                 (fun _ => Err (RuntimeError "")) in
  exists out,
    DAC.encode (DAC.mk model 2) (mkT3 1 1 2 [[[0; 0]]]) = Ok (out, None)
    /\ wf3 out
    /\ shape3 out = (1, 2, 2)%nat
    /\ forall b k, (k < 2)%nat ->
                   row_at out b k = row_at (mkT3 1 3 2 [[[1; 2]; [3; 4]; [5; 6]]]) b k.
Proof.
  intro model.
  apply (dac_encode_truncates (DAC.mk model 2) (mkT3 1 1 2 [[[0; 0]]])
           (mkT3 1 3 2 [[[1; 2]; [3; 4]; [5; 6]]])).
  - reflexivity.
  - repeat constructor.
  - cbn; lia.
Defined.

(** ** EncodecModel: renormalization *)

Section Renormalization.
Context {R : Type} `{Sample R} {Qz : Type} `{BaseQuantizer.API R Qz}.

Lemma length_scale_items (f : R -> R -> R) (items : list (list (list R)))
    (scales : list R) :
  length scales = length items ->
  length (EncodecModel.scale_items f items scales) = length items.
Proof.
  intro E. unfold EncodecModel.scale_items, zip_with.
  rewrite length_map, length_combine. lia.
Qed.

Lemma scale_items_shape (f : R -> R -> R) (K T : nat) (items : list (list (list R)))
    (scales : list R) :
  Forall (matrix_shape K T) items ->
  Forall (matrix_shape K T) (EncodecModel.scale_items f items scales).
Proof.
  intro Hitems. unfold EncodecModel.scale_items, zip_with. apply Forall_map.
  apply Forall_forall. intros [item s] Hin. apply in_combine_l in Hin.
  rewrite Forall_forall in Hitems. destruct (Hitems item Hin) as [HK HT].
  cbn [fst snd]. split; [rewrite length_map; exact HK|].
  apply Forall_map. eapply Forall_impl; [|exact HT].
  intros row Hrow. rewrite length_map. exact Hrow.
Qed.

Lemma concat_singletons (l : list R) : concat (map (fun s => [s]) l) = l.
Proof. induction l as [|a l IH]; [reflexivity|]. cbn [map concat app]. f_equal. exact IH. Qed.

Lemma length_concat_columns (m : list (list R)) :
  Forall (fun row => length row = 1%nat) m -> length (concat m) = length m.
Proof.
  induction 1 as [|row m Hrow _ IH]; [reflexivity|].
  cbn [concat length]. rewrite length_app, IH, Hrow. reflexivity.
Qed.

(** Multiplying by a scale with one entry per batch item keeps the shape. *)
Lemma mul_scale_per_item (x : Tensor3 R) (scale : Tensor2 R) :
  wf3 x -> length (concat (cells2 scale)) = dimB x ->
  exists out, EncodecModel.mul_scale x scale = Ok out
              /\ shape3 out = shape3 x /\ wf3 out.
Proof.
  intros [HB Hx] Hlen. unfold EncodecModel.mul_scale. rewrite Hlen, Nat.eqb_refl.
  eexists. split; [reflexivity|]. split; [reflexivity|]. split.
  - cbn [cells dimB]. rewrite length_scale_items; [exact HB|]. congruence.
  - cbn [cells dimK dimT]. apply scale_items_shape. exact Hx.
Qed.

End Renormalization.

Lemma preprocess_spec {R Qz : Type} `{Sample R}
    (self : EncodecModel.t R Qz) (x : Tensor3 R) :
  wf3 x ->
  let '(x', scale) := EncodecModel.preprocess self x in
  shape3 x' = shape3 x /\ wf3 x'
  /\ (EncodecModel.renormalize self = true ->
      exists s, scale = Some s /\ wf2 s /\ rows2 s = dimB x /\ cols2 s = 1%nat)
  /\ (EncodecModel.renormalize self = false -> x' = x /\ scale = None).
Proof.
  intros Hwf. unfold EncodecModel.preprocess.
  destruct (EncodecModel.renormalize self).
  - destruct Hwf as [HB Hx]. split; [reflexivity|]. split; [|split].
    + split; cbn [cells dimB dimK dimT].
      * rewrite length_scale_items; [exact HB|]. rewrite length_map. reflexivity.
      * apply scale_items_shape. exact Hx.
    + intros _. eexists. split; [reflexivity|]. repeat split.
      * cbn [cells2 rows2]. rewrite !length_map. exact HB.
      * cbn [cells2 cols2]. apply Forall_map. apply Forall_forall. reflexivity.
    + discriminate.
  - split; [reflexivity|]. split; [exact Hwf|]. split; [discriminate|].
    intros _. split; reflexivity.
Qed.

(** X5.  [preprocess] keeps the shape of the audio.  With renormalization
    it returns a scale of shape [[B, 1]], one entry per batch item;
    without, it returns the audio itself and no scale. *)
Theorem preprocess_shape {R Qz : Type} `{Sample R}
    (self : EncodecModel.t R Qz) (x : Tensor3 R) :
  wf3 x ->
  let '(x', scale) := EncodecModel.preprocess self x in
  shape3 x' = shape3 x /\ wf3 x'
  /\ (EncodecModel.renormalize self = true ->
      exists s, scale = Some s /\ wf2 s /\ rows2 s = dimB x /\ cols2 s = 1%nat)
  /\ (EncodecModel.renormalize self = false -> x' = x /\ scale = None).
Proof. apply preprocess_spec. Qed.

Lemma preprocess_shape_witness :
  wf3 (mkT3 2 1 3 [[[3; 6; 9]]; [[1; 0; -2]]])
  /\ let '(x', scale) := EncodecModel.preprocess (Examples.toy_encodec true)
                           (mkT3 2 1 3 [[[3; 6; 9]]; [[1; 0; -2]]]) in
     shape3 x' = (2, 1, 3)%nat /\ wf3 x'
     /\ (true = true ->
         exists s, scale = Some s /\ wf2 s /\ rows2 s = 2%nat /\ cols2 s = 1%nat)
     /\ (true = false ->
         x' = mkT3 2 1 3 [[[3; 6; 9]]; [[1; 0; -2]]] /\ scale = None).
Proof.
  assert (Hwf : wf3 (mkT3 2 1 3 [[[3; 6; 9]]; [[1; 0; -2]]])) by (repeat constructor).
  split; [exact Hwf|].
  exact (preprocess_shape (Examples.toy_encodec true)
           (mkT3 2 1 3 [[[3; 6; 9]]; [[1; 0; -2]]]) Hwf).
Defined.

(** X6.  [decode] accepts the scale [encode] returned: when the quantizer
    and the decoder succeed and the decoded audio has the batch size of
    the encoded audio, [decode] succeeds and its result has the shape of
    the decoder's output. *)
Theorem encodec_decode_after_encode {R Qz : Type} `{Sample R} `{BaseQuantizer.API R Qz}
    (self : EncodecModel.t R Qz) (x : Tensor3 R) (codes : Tensor3 Z)
    (scale : option (Tensor2 R)) (emb out : Tensor3 R) :
  wf3 x ->
  EncodecModel.encode self x = Ok (codes, scale) ->
  BaseQuantizer.decode (EncodecModel.quantizer self) codes = Ok emb ->
  EncodecModel.decoder self emb = Ok out ->
  wf3 out -> dimB out = dimB x ->
  exists audio,
    EncodecModel.decode self codes scale = Ok audio
    /\ shape3 audio = shape3 out /\ wf3 audio
    /\ (EncodecModel.renormalize self = false -> audio = out).
Proof.
  intros Hx Eenc Eemb Eout Hout HB.
  unfold EncodecModel.decode, EncodecModel.decode_latent. rewrite Eemb. cbn [bind].
  rewrite Eout. cbn [bind].
  unfold EncodecModel.encode in Eenc.
  pose proof (preprocess_spec self x Hx) as Hpre.
  destruct (EncodecModel.preprocess self x) as [x' scale'].
  destruct Hpre as (_ & _ & Hyes & Hno).
  destruct (EncodecModel.encoder self x') as [e|]; cbn [bind] in Eenc; [|discriminate].
  destruct (BaseQuantizer.encode (EncodecModel.quantizer self) e);
    cbn [bind] in Eenc; [|discriminate].
  injection Eenc as _ <-.
  unfold EncodecModel.postprocess.
  destruct (EncodecModel.renormalize self) eqn:Er.
  - destruct (Hyes eq_refl) as (s & -> & [Hrows Hcols] & Hr & Hc).
    cbn [assert bind].
    assert (Hlen : length (concat (cells2 s)) = dimB out).
    { rewrite Hc in Hcols. rewrite length_concat_columns by exact Hcols.
      congruence. }
    destruct (mul_scale_per_item out s Hout Hlen) as (audio & -> & Hs & Hw).
    exists audio. repeat split; try assumption; try apply Hw. discriminate.
  - destruct (Hno eq_refl) as [_ ->]. exists out. cbn [bind].
    repeat split; try apply Hout.
Qed.

Lemma encodec_decode_after_encode_witness :
  exists audio,
    EncodecModel.decode (Examples.toy_encodec true)
      (mkT3 1 3 3 [[[0; 0; 0]; [1; 1; 1]; [2; 2; 2]]]) (Some (mkT2 1 1 [[10]]))
    = Ok audio
    /\ shape3 audio = (1, 1, 3)%nat /\ wf3 audio
    /\ (true = false -> audio = mkT3 1 1 3 [[[0; 0; 0]]]).
Proof.
  apply (encodec_decode_after_encode (Examples.toy_encodec true)
           (mkT3 1 1 3 [[[3; 6; 9]]])
           (mkT3 1 3 3 [[[0; 0; 0]; [1; 1; 1]; [2; 2; 2]]])
           (Some (mkT2 1 1 [[10]]))
           (mkT3 1 1 3 [[[0; 0; 0]]]) (mkT3 1 1 3 [[[0; 0; 0]]]));
    try reflexivity; repeat constructor.
Defined.

Section Broadcast.
Context {R : Type} `{Sample R}.

Lemma length_concat_matrix (r c : nat) (m : list (list R)) :
  matrix_shape r c m -> length (concat m) = (r * c)%nat.
Proof.
  intros [<- Hm]. induction Hm as [|row m Hrow _ IH]; [reflexivity|].
  cbn [concat length]. rewrite length_app, IH, Hrow. lia.
Qed.

Lemma mul_scale_dimT (x out : Tensor3 R) (scale : Tensor2 R) :
  EncodecModel.mul_scale x scale = Ok out -> dimT out = dimT x.
Proof.
  unfold EncodecModel.mul_scale.
  destruct (length (concat (cells2 scale)) =? dimB x)%nat.
  - intro E. injection E as <-. reflexivity.
  - destruct (concat (cells2 scale)) as [|s [|s' vals]];
      destruct (cells x) as [|item [|item' items]]; intro E;
      try discriminate; injection E as <-; reflexivity.
Qed.

End Broadcast.

(** X7.  [postprocess] cannot apply a scale whose number of entries is
    neither the batch size nor 1 to a batch of more than one item: the
    multiplication fails to broadcast. *)
Theorem postprocess_scale_mismatch {R Qz : Type} `{Sample R}
    (self : EncodecModel.t R Qz) (x : Tensor3 R) (scale : Tensor2 R) :
  EncodecModel.renormalize self = true ->
  wf3 x -> wf2 scale ->
  (rows2 scale * cols2 scale)%nat <> dimB x ->
  (rows2 scale * cols2 scale)%nat <> 1%nat ->
  dimB x <> 1%nat ->
  EncodecModel.postprocess self x (Some scale)
  = Err (RuntimeError "The size of tensor a must match the size of tensor b").
Proof.
  intros Hr [HB _] Hs HN H1 HB1. unfold EncodecModel.postprocess. rewrite Hr.
  cbn [assert bind]. unfold EncodecModel.mul_scale.
  pose proof (length_concat_matrix _ _ _ Hs) as Hlen.
  apply Nat.eqb_neq in HN. rewrite Hlen, HN.
  destruct (concat (cells2 scale)) as [|s [|s' vals]];
    destruct (cells x) as [|item [|item' items]]; cbn [length] in *;
    try reflexivity; congruence.
Qed.

Lemma postprocess_scale_mismatch_witness :
  EncodecModel.postprocess (Examples.toy_encodec true)
    (mkT3 3 1 2 [[[1; 2]]; [[3; 4]]; [[5; 6]]]) (Some (mkT2 2 1 [[4]; [7]]))
  = Err (RuntimeError "The size of tensor a must match the size of tensor b").
Proof.
  apply (postprocess_scale_mismatch (Examples.toy_encodec true)
           (mkT3 3 1 2 [[[1; 2]]; [[3; 4]]; [[5; 6]]]) (mkT2 2 1 [[4]; [7]]));
    try reflexivity; try (repeat constructor); cbn; lia.
Defined.

(** X8.  [forward] trims the decoder's output to the length of its input:
    whatever it returns has as many samples as [x], the other fields of
    the quantizer's result being passed on; and it fails with the failed
    assertion [(out.shape[-1], length)] when the decoder returned fewer
    samples than [x] has. *)
Theorem forward_trims_to_input_length {R Qz Info : Type}
    `{Sample R} `{BaseQuantizer.API R Qz}
    (quantize : Qz -> Tensor3 R -> Z -> result (QuantizedResult R Info))
    (self : EncodecModel.t R Qz) (x : Tensor3 R) :
  (forall q_res, EncodecModelForward.forward quantize self x = Ok q_res ->
                 dimT (qr_x q_res) = dimT x)
  /\ (forall emb q out,
         EncodecModel.encoder self (fst (EncodecModel.preprocess self x)) = Ok emb ->
         quantize (EncodecModel.quantizer self) emb (EncodecModel.frame_rate self)
         = Ok q ->
         EncodecModel.decoder self (qr_x q) = Ok out ->
         ((dimT out < dimT x)%nat ->
          EncodecModelForward.forward quantize self x
          = Err (AssertionError ("(" ++ str_nat (dimT out) ++ ", "
                                 ++ str_nat (dimT x) ++ ")")))
         /\ forall q_res,
              EncodecModelForward.forward quantize self x = Ok q_res ->
              qr_info q_res = qr_info q).
Proof.
  unfold EncodecModelForward.forward.
  destruct (EncodecModel.preprocess self x) as [x' scale]. cbn [fst]. split.
  - intros q_res.
    destruct (EncodecModel.encoder self x') as [emb|]; cbn [bind]; [|discriminate].
    destruct (quantize _ emb _) as [q|]; cbn [bind]; [|discriminate].
    destruct (EncodecModel.decoder self (qr_x q)) as [out|]; cbn [bind];
      [|discriminate].
    destruct (Nat.leb_spec (dimT x) (dimT out)) as [Hle|Hlt]; cbn [assert bind];
      [|discriminate].
    destruct (EncodecModel.postprocess self (narrow_time out (dimT x)) scale)
      as [x''|] eqn:Epost; cbn [bind]; intro E; [|discriminate].
    injection E as <-. cbn [qr_x].
    unfold EncodecModel.postprocess in Epost. destruct scale as [s|].
    + destruct (EncodecModel.renormalize self); cbn [assert bind] in Epost;
        [|discriminate].
      rewrite (mul_scale_dimT _ _ _ Epost). cbn [narrow_time dimT]. lia.
    + injection Epost as <-. cbn [narrow_time dimT]. lia.
  - intros emb q out -> . cbn [bind]. intros ->. cbn [bind]. intros ->.
    cbn [bind]. split.
    + intro Hlt. apply Nat.leb_gt in Hlt. rewrite Hlt. reflexivity.
    + intros q_res.
      destruct (dimT x <=? dimT out)%nat; cbn [assert bind]; [|discriminate].
      destruct (EncodecModel.postprocess self _ scale); cbn [bind]; intro E;
        [|discriminate].
      injection E as <-. reflexivity.
Qed.

Lemma forward_trims_to_input_length_witness :
  let padded := fun x : Tensor3 Z =>
                  Ok (mkT3 (dimB x) (dimK x) (dimT x + 2)
                           (map (map (fun row => row ++ [0; 0])) (cells x))) in
  let quantize := fun (q : Examples.ToyQuantizer) (emb : Tensor3 Z) (_ : Z) =>
                    Ok (mkQuantizedResult emb tt) in
  let self := EncodecModel.mk Examples.identity_net padded (Examples.mkToy 3 3 16)
                              50 16000 1 false false in
  EncodecModelForward.forward quantize self (mkT3 1 1 3 [[[3; 6; 9]]])
  = Ok (mkQuantizedResult (mkT3 1 1 3 [[[3; 6; 9]]]) tt)
  /\ dimT (qr_x (mkQuantizedResult (mkT3 1 1 3 [[[3; 6; 9]]]) tt)) = 3%nat.
Proof.
  intros padded quantize self. split; [reflexivity|].
  apply (forward_trims_to_input_length quantize self (mkT3 1 1 3 [[[3; 6; 9]]])).
  reflexivity.
Defined.

(** X9.  A causal EncodecModel cannot be built with renormalization, so a
    causal model never returns a scale from [encode] and fails on every
    [decode] given one. *)
Theorem causal_model_has_no_scale {R Qz : Type} `{Sample R} `{BaseQuantizer.API R Qz}
    (encoder decoder : Tensor3 R -> result (Tensor3 R)) (quantizer : Qz)
    (frame_rate sample_rate channels : Z) (renormalize : bool) :
  (renormalize = true ->
   EncodecModel.init encoder decoder quantizer frame_rate sample_rate channels
                     true renormalize
   = Err (AssertionError "Causal model does not support renormalize"))
  /\ forall self,
       EncodecModel.init encoder decoder quantizer frame_rate sample_rate channels
                         true renormalize = Ok self ->
       (forall x r, EncodecModel.encode self x = Ok r -> snd r = None)
       /\ (forall codes scale,
              raises (EncodecModel.decode self codes (Some scale))).
Proof.
  unfold EncodecModel.init. split.
  - intros ->. reflexivity.
  - intros self. destruct renormalize; cbn [negb assert bind]; intro E;
      [discriminate|]. injection E as <-. split.
    + intros x r Er. apply (encodec_encode_scale _ x r Er). reflexivity.
    + intros codes scale. apply encodec_rejects_scale. reflexivity.
Qed.

Lemma causal_model_has_no_scale_witness :
  EncodecModel.init Examples.identity_net Examples.identity_net
                    (Examples.mkToy 3 3 16) 50 16000 1 true true
  = Err (AssertionError "Causal model does not support renormalize").
Proof.
  apply (causal_model_has_no_scale Examples.identity_net Examples.identity_net
           (Examples.mkToy 3 3 16) 50 16000 1 true).
  reflexivity.
Defined.

(** ** SQCodec: encoding and decoding compose *)

Section SQCodecPipeline.
Context {R : Type} `{Sample R}.



Lemma mapM_raises {A B : Type} (f : A -> result B) (xs : list A) (x : A) :
  In x xs -> raises (f x) -> raises (mapM f xs).
Proof.
  intros Hin [e He]. induction xs as [|a xs IH]; [contradiction|].
  cbn [mapM]. destruct Hin as [->|Hin].
  - rewrite He. exists e. reflexivity.
  - destruct (f a) as [b|e']; cbn [bind]; [|exists e'; reflexivity].
    destruct (IH Hin) as [e'' ->]. exists e''. reflexivity.
Qed.

End SQCodecPipeline.





(** X12.  [decode_latent] reads one codebook per configured codebook: on
    codes with fewer codebooks than [n_codebook] it raises, and with no
    configured codebook (the constructor accepts [n_codebook <= 0]) the
    packed mode can neither encode, [chunk] refusing the count, nor
    decode, there being nothing to concatenate. *)
Theorem sqcodec_codebook_count_errors {R : Type} `{Sample R}
    (self : SQCodec.t R) (codes : Tensor3 Z) (x : Tensor3 R) :
  (Z.of_nat (dimK codes) < SQCodec.n_codebook self ->
   raises (SQCodec.decode_latent self codes))
  /\ (SQCodec.n_codebook self <= 0 ->
      SQCodec.decode_latent self codes
      = Err (RuntimeError "torch.cat(): expected a non-empty list of Tensors")
      /\ (SQCodec.use_ternary self = false ->
          SQCodec.encode_latent self x
          = Err (RuntimeError "chunk expects `chunks` to be greater than 0"))).
Proof.
  split.
  - intro Hk. unfold SQCodec.decode_latent.
    assert (Hr : raises (mapM
                           (fun i =>
                              codes_i <- select_codebook codes i ;;
                              tmp_list <- decimal_to_ternary_matrix codes_i
                                            (Z.to_nat (SQCodec.emb_dim self)) ;;
                              Ok (map3 (fun z => z - 1) tmp_list))
                           (range (SQCodec.n_codebook self)))).
    { apply (mapM_raises _ _ (dimK codes)).
      - unfold range. apply in_seq. lia.
      - unfold select_codebook. rewrite Nat.ltb_irrefl. eexists. reflexivity. }
    destruct Hr as [e ->]. exists e. reflexivity.
  - intro Hn. split.
    + unfold SQCodec.decode_latent, range.
      replace (Z.to_nat (SQCodec.n_codebook self)) with O by lia. reflexivity.
    + intro Hut. unfold SQCodec.encode_latent, chunk. rewrite Hut.
      apply Z.leb_le in Hn. rewrite Hn. reflexivity.
Qed.

Lemma sqcodec_codebook_count_errors_witness :
  Z.of_nat 3 < SQCodec.n_codebook Examples.toy_sqcodec
  /\ raises (SQCodec.decode_latent Examples.toy_sqcodec
               (mkT3 1 3 1 [[[5]; [0]; [19682]]])).
Proof.
  split; [cbn; lia|].
  apply (sqcodec_codebook_count_errors Examples.toy_sqcodec
           (mkT3 1 3 1 [[[5]; [0]; [19682]]]) (mkT3 1 36 1 [repeat [0] 36])).
  cbn; lia.
Defined.

(** X13.  The field [mask_id] is computed once, in the constructor, as
    [dim_codebook * n_codebook]; [set_cardinality] and [set_num_codebooks]
    change the cardinality and the number of codebooks and leave
    [mask_id] at its first value. *)
Theorem sqcodec_mask_id_is_not_updated {R : Type}
    (scalar_codec : ScalarModel R) (new_linear : Z -> Z -> Linear R)
    (sample_rate dim_codebook n_codebook bw emb_dim clip_length : Z)
    (hidden_dim : option Z) (use_ternary : bool) (c n : Z) :
  let self := SQCodec.init scalar_codec new_linear sample_rate dim_codebook
                           n_codebook bw emb_dim clip_length hidden_dim
                           use_ternary in
  SQCodec.mask_id self = SQCodec.cardinality self * SQCodec.num_codebooks self
  /\ (1 <= c -> 1 <= n ->
      exists self1 self2,
        SQCodec.set_cardinality self c = Ok self1
        /\ SQCodec.set_num_codebooks self1 n = Ok self2
        /\ SQCodec.cardinality self2 = c
        /\ SQCodec.num_codebooks self2 = n
        /\ SQCodec.mask_id self2 = dim_codebook * n_codebook).
Proof.
  intro self. split; [reflexivity|]. intros Hc Hn.
  unfold SQCodec.set_cardinality. apply Z.leb_le in Hc. rewrite Hc.
  cbn [assert bind]. eexists. eexists. split; [reflexivity|].
  unfold SQCodec.set_num_codebooks. apply Z.leb_le in Hn. rewrite Hn.
  cbn [assert bind]. repeat split.
Qed.

Lemma sqcodec_mask_id_is_not_updated_witness :
  (1 <= 27 /\ 1 <= 2)
  /\ exists self1 self2,
       SQCodec.set_cardinality Examples.toy_sqcodec 27 = Ok self1
       /\ SQCodec.set_num_codebooks self1 2 = Ok self2
       /\ SQCodec.cardinality self2 = 27
       /\ SQCodec.num_codebooks self2 = 2
       /\ SQCodec.mask_id self2 = 19683 * 4.
Proof.
  split; [lia|].
  apply (sqcodec_mask_id_is_not_updated Examples.toy_scalar_codec Examples.toy_linear
           16000 19683 4 2 9 450 None false 27 2); lia.
Defined.

(** ** The stereo wrapper: construction, composition, de-interleaving *)

(** X14.  A stereo wrapper can be built around a DAC or an SQCodec, whose
    [channels] is 1, and around an EncodecModel or an HF adapter exactly
    when it has one channel; it can never be built around a WavTokenizer,
    whose class attribute [channels = 0] is never reassigned. *)
Theorem stereo_wrapper_needs_mono {R Qz : Type} `{Sample R} `{BaseQuantizer.API R Qz}
    (per_timestep : bool) :
  (forall m : DAC.t R,
      InterleaveStereoCompressionModel.init m per_timestep
      = Ok (InterleaveStereoCompressionModel.mk m per_timestep))
  /\ (forall m : SQCodec.t R,
         InterleaveStereoCompressionModel.init m per_timestep
         = Ok (InterleaveStereoCompressionModel.mk m per_timestep))
  /\ (forall m : WavTokenizer.t R,
         InterleaveStereoCompressionModel.init m per_timestep
         = Err (AssertionError "Wrapped model is expected to be for monophonic audio"))
  /\ (forall m : EncodecModel.t R Qz,
         is_ok (InterleaveStereoCompressionModel.init m per_timestep) = true
         <-> EncodecModel.channels m = 1)
  /\ (forall m : HFEncodecCompressionModel.t R,
         is_ok (InterleaveStereoCompressionModel.init m per_timestep) = true
         <-> hf_audio_channels (HFEncodecCompressionModel.model m) = 1).
Proof.
  repeat apply conj; intro m; try reflexivity.
  - unfold InterleaveStereoCompressionModel.init.
    cbn [CompressionModel.channels EncodecModel.compression_model].
    destruct (Z.eqb_spec (EncodecModel.channels m) 1) as [E|E];
      cbn [assert bind is_ok]; split; intro; congruence.
  - unfold InterleaveStereoCompressionModel.init.
    cbn [CompressionModel.channels HFEncodecCompressionModel.compression_model].
    unfold HFEncodecCompressionModel.channels.
    destruct (Z.eqb_spec (hf_audio_channels (HFEncodecCompressionModel.model m)) 1)
      as [E|E]; cbn [assert bind is_ok]; split; intro; congruence.
Qed.

Section Unweaving.
Context {A : Type}.

Lemma pair_induction (P : list A -> Prop) :
  P [] -> (forall x, P [x]) -> (forall x y l, P l -> P (x :: y :: l)) ->
  forall l, P l.
Proof.
  intros H0 H1 H2 l.
  assert (Hboth : P l /\ forall x, P (x :: l)).
  { induction l as [|a l [IHl IHx]]; split; auto. }
  apply Hboth.
Qed.

Lemma unweave_lengths (l : list A) :
  length (fst (unweave l)) = (length l / 2)%nat
  /\ length (snd (unweave l)) = (length l / 2)%nat.
Proof.
  induction l as [| x | x y l [IH1 IH2]] using pair_induction;
    try (split; reflexivity).
  cbn [unweave]. destruct (unweave l) as [a b]. cbn [fst snd length] in *.
  change (S (S (length l))) with (1 * 2 + length l)%nat.
  rewrite Nat.div_add_l by discriminate. cbn [Nat.add]. split; congruence.
Qed.

Lemma weave_unweave (l : list A) :
  Nat.even (length l) = true -> weave (fst (unweave l)) (snd (unweave l)) = l.
Proof.
  induction l as [| x | x y l IH] using pair_induction; intro He.
  - reflexivity.
  - discriminate.
  - cbn [unweave]. cbn [length Nat.even] in He. specialize (IH He).
    destruct (unweave l) as [a b]. cbn [fst snd weave] in *. rewrite IH.
    reflexivity.
Qed.

Lemma In_unweave (l : list A) (a : A) :
  In a (fst (unweave l)) \/ In a (snd (unweave l)) -> In a l.
Proof.
  induction l as [| x | x y l IH] using pair_induction.
  - intros [[]|[]].
  - intros [[]|[]].
  - cbn [unweave]. destruct (unweave l) as [u v]. cbn [fst snd In] in *.
    intros [[->|Hin]|[->|Hin]]; auto.
Qed.

End Unweaving.

Lemma zip_with_unzip {A B C : Type} (f : B -> C -> A) (g : A -> B) (h : A -> C)
    (l : list A) :
  (forall a, In a l -> f (g a) (h a) = a) ->
  zip_with f (map g l) (map h l) = l.
Proof.
  intro Hf. unfold zip_with. induction l as [|a l IH]; [reflexivity|].
  cbn [map combine fst snd]. rewrite Hf by (left; reflexivity). f_equal.
  apply IH. intros; apply Hf; right; assumption.
Qed.

Section Deinterleave.
Context {A : Type}.

Lemma even_div2_double (n : nat) : Nat.even n = true -> (n / 2 * 2)%nat = n.
Proof.
  intro He. apply Nat.even_spec in He. destruct He as [k ->].
  replace (2 * k)%nat with (k * 2)%nat by lia.
  rewrite Nat.div_mul by discriminate. reflexivity.
Qed.

(** The two halves of a tensor de-interleaved along the codebook axis. *)
Lemma halves_b_kc_t (x : Tensor3 A) (s : Stacked A) :
  wf3 x -> rearrange_from_b_kc_t x = Ok s ->
  wf3 (chan0 s) /\ wf3 (chan1 s)
  /\ shape3 (chan0 s) = (dimB x, (dimK x / 2)%nat, dimT x)
  /\ shape3 (chan1 s) = shape3 (chan0 s)
  /\ rearrange_to_b_kc_t s = x.
Proof.
  intros [HB Hx] E. unfold rearrange_from_b_kc_t in E.
  destruct (Nat.even (dimK x)) eqn:He; [|discriminate]. injection E as <-.
  cbn [chan0 chan1]. unfold wf3, shape3, rearrange_to_b_kc_t.
  cbn [chan0 chan1 dimB dimK dimT cells]. rewrite !length_map.
  assert (Hhalf : forall pick : list (list A) * list (list A) -> list (list A),
             (pick = fst \/ pick = snd) ->
             Forall (matrix_shape (dimK x / 2) (dimT x))
                    (map (fun item => pick (unweave item)) (cells x))).
  { intros pick Hpick. apply Forall_map. eapply Forall_impl; [|exact Hx].
    intros item [HK HT]. destruct (unweave_lengths item) as [L1 L2]. split.
    - destruct Hpick as [-> | ->]; congruence.
    - rewrite Forall_forall in *. intros row Hrow. apply HT.
      apply In_unweave. destruct Hpick as [-> | ->]; auto. }
  split; [split; [exact HB|apply (Hhalf fst); left; reflexivity]|].
  split; [split; [exact HB|apply (Hhalf snd); right; reflexivity]|].
  split; [reflexivity|]. split; [reflexivity|].
  - change (fst (Nat.divmod (dimK x) 1 0 1)) with (dimK x / 2)%nat.
    rewrite even_div2_double by exact He.
    rewrite (zip_with_unzip weave (fun item => fst (unweave item))
                            (fun item => snd (unweave item))).
    + destruct x; reflexivity.
    + intros item Hin. apply weave_unweave. rewrite Forall_forall in Hx.
      destruct (Hx item Hin) as [-> _]. exact He.
Qed.

(** The two halves of a tensor de-interleaved along the time axis. *)
Lemma halves_b_k_tc (x : Tensor3 A) (s : Stacked A) :
  wf3 x -> rearrange_from_b_k_tc x = Ok s ->
  wf3 (chan0 s) /\ wf3 (chan1 s)
  /\ shape3 (chan0 s) = (dimB x, dimK x, (dimT x / 2)%nat)
  /\ shape3 (chan1 s) = shape3 (chan0 s)
  /\ rearrange_to_b_k_tc s = x.
Proof.
  intros [HB Hx] E. unfold rearrange_from_b_k_tc in E.
  destruct (Nat.even (dimT x)) eqn:He; [|discriminate]. injection E as <-.
  cbn [chan0 chan1]. unfold wf3, shape3, rearrange_to_b_k_tc.
  cbn [chan0 chan1 dimB dimK dimT cells]. rewrite !length_map.
  assert (Hhalf : forall pick : list A * list A -> list A,
             (pick = fst \/ pick = snd) ->
             Forall (matrix_shape (dimK x) (dimT x / 2))
                    (map (map (fun row => pick (unweave row))) (cells x))).
  { intros pick Hpick. apply Forall_map. eapply Forall_impl; [|exact Hx].
    intros item [HK HT]. split; [rewrite length_map; exact HK|].
    apply Forall_map. eapply Forall_impl; [|exact HT]. intros row Hrow.
    destruct (unweave_lengths row) as [L1 L2].
    destruct Hpick as [-> | ->]; congruence. }
  split; [split; [exact HB|apply (Hhalf fst); left; reflexivity]|].
  split; [split; [exact HB|apply (Hhalf snd); right; reflexivity]|].
  split; [reflexivity|]. split; [reflexivity|].
  - change (fst (Nat.divmod (dimT x) 1 0 1)) with (dimT x / 2)%nat.
    rewrite even_div2_double by exact He.
    rewrite (zip_with_unzip (zip_with weave)
               (map (fun row => fst (unweave row)))
               (map (fun row => snd (unweave row)))).
    + destruct x; reflexivity.
    + intros item Hin. apply zip_with_unzip. intros row Hrow.
      apply weave_unweave. rewrite Forall_forall in Hx.
      destruct (Hx item Hin) as [_ HT]. rewrite Forall_forall in HT.
      rewrite (HT row Hrow). exact He.
Qed.

End Deinterleave.

(** X15.  [get_left_right_codes] succeeds exactly when the interleaved
    axis (time or codebooks) has an even length, and raises einops' shape
    error otherwise.  The two tensors it returns are well formed, of one
    shape with that axis halved, and interleaving them again gives the
    codes back: nothing is dropped. *)
Theorem get_left_right_codes_halves {R M : Type} `{CompressionModel.API R (Tensor2 R) M}
    (self : InterleaveStereoCompressionModel.t M) (codes : Tensor3 Z) :
  let pt := InterleaveStereoCompressionModel.per_timestep self in
  let axis := if pt then dimT codes else dimK codes in
  is_ok (InterleaveStereoCompressionModel.get_left_right_codes self codes)
  = Nat.even axis
  /\ (Nat.even axis = false ->
      InterleaveStereoCompressionModel.get_left_right_codes self codes
      = Err (EinopsError (einops_msg axis)))
  /\ forall l r,
       wf3 codes ->
       InterleaveStereoCompressionModel.get_left_right_codes self codes = Ok (l, r) ->
       wf3 l /\ wf3 r /\ shape3 r = shape3 l
       /\ shape3 l = (if pt then (dimB codes, dimK codes, (dimT codes / 2)%nat)
                      else (dimB codes, (dimK codes / 2)%nat, dimT codes))
       /\ (if pt then rearrange_to_b_k_tc (mkStacked l r)
           else rearrange_to_b_kc_t (mkStacked l r)) = codes.
Proof.
  intros pt axis. unfold axis, pt.
  unfold InterleaveStereoCompressionModel.get_left_right_codes.
  destruct (InterleaveStereoCompressionModel.per_timestep self).
  - split; [|split].
    + unfold rearrange_from_b_k_tc. destruct (Nat.even (dimT codes)); reflexivity.
    + intro He. unfold rearrange_from_b_k_tc. rewrite He. reflexivity.
    + intros l r Hwf E.
      destruct (rearrange_from_b_k_tc codes) as [s|] eqn:Es; cbn [bind] in E;
        [|discriminate].
      injection E as <- <-.
      destruct (halves_b_k_tc codes s Hwf Es) as (H0 & H1 & Hs & Hs' & Hback).
      repeat split; try apply H0; try apply H1; assumption.
  - split; [|split].
    + unfold rearrange_from_b_kc_t. destruct (Nat.even (dimK codes)); reflexivity.
    + intro He. unfold rearrange_from_b_kc_t. rewrite He. reflexivity.
    + intros l r Hwf E.
      destruct (rearrange_from_b_kc_t codes) as [s|] eqn:Es; cbn [bind] in E;
        [|discriminate].
      injection E as <- <-.
      destruct (halves_b_kc_t codes s Hwf Es) as (H0 & H1 & Hs & Hs' & Hback).
      repeat split; try apply H0; try apply H1; assumption.
Qed.

Lemma get_left_right_codes_halves_witness :
  InterleaveStereoCompressionModel.get_left_right_codes Examples.stereo_timesteps
    (mkT3 1 2 3 [[[1; 4; 2]; [2; 5; 3]]])
  = Err (EinopsError (einops_msg 3)).
Proof.
  apply (get_left_right_codes_halves Examples.stereo_timesteps
           (mkT3 1 2 3 [[[1; 4; 2]; [2; 5; 3]]])).
  reflexivity.
Defined.

Section StereoPipeline.
Import InterleaveStereoCompressionModel.
Context {R M : Type} `{CompressionModel.API R (Tensor2 R) M}.

(** The two shape checks of [decode] pass on what [encode] interleaved,
    when the backend returns as many codebooks as it reports. *)
Lemma decode_after_interleave (self : t M) (l r : Tensor3 Z) :
  wf3 l -> wf3 r -> shape3 l = shape3 r ->
  Z.of_nat (dimK l) = CompressionModel.num_codebooks (model self) ->
  decode self (if per_timestep self then rearrange_to_b_k_tc (mkStacked l r)
               else rearrange_to_b_kc_t (mkStacked l r)) None
  = (audio_c0 <- CompressionModel.decode (model self) l None ;;
     audio_c1 <- CompressionModel.decode (model self) r None ;;
     cat_pair audio_c0 audio_c1).
Proof.
  intros Hl Hr Es HK. unfold decode, num_virtual_steps, num_codebooks.
  unfold decode_channels, get_left_right_codes.
  destruct (per_timestep self).
  - rewrite rearrange_b_k_tc_inverse by assumption.
    cbn [rearrange_to_b_k_tc chan0 chan1 dimB dimK dimT].
    rewrite Nat2Z.inj_mul. change (Z.of_nat 2) with 2. rewrite Z_mod_mult.
    rewrite HK, !Z.eqb_refl. reflexivity.
  - rewrite rearrange_b_kc_t_inverse by assumption.
    cbn [rearrange_to_b_kc_t chan0 chan1 dimB dimK dimT].
    rewrite Z.mod_1_r, Nat2Z.inj_mul. change (Z.of_nat 2) with 2.
    rewrite HK, !Z.eqb_refl. reflexivity.
Qed.

(** Concatenating two mono frames: channel 0 is the first, channel 1 the
    second. *)
Lemma cat_pair_mono (a0 a1 : Tensor3 R) :
  wf3 a0 -> wf3 a1 -> dimK a0 = 1%nat -> dimK a1 = 1%nat ->
  dimB a0 = dimB a1 -> dimT a0 = dimT a1 ->
  exists audio,
    cat_pair a0 a1 = Ok audio
    /\ shape3 audio = (dimB a0, 2%nat, dimT a0)
    /\ forall b, row_at audio b 0 = row_at a0 b 0
                 /\ row_at audio b 1 = row_at a1 b 0.
Proof.
  intros [HB0 H0] [HB1 H1] HK0 HK1 HB HT. unfold cat_pair.
  rewrite HB, HT, !Nat.eqb_refl. cbn [andb].
  eexists. split; [reflexivity|]. split.
  - unfold shape3. cbn [dimB dimK dimT]. rewrite HK0, HK1. reflexivity.
  - intro b. unfold row_at. cbn [cells]. rewrite nth_error_zip_with.
    assert (Hlen : length (cells a0) = length (cells a1)) by congruence.
    destruct (nth_error_same_length (cells a0) (cells a1) b Hlen)
      as [(i0 & i1 & E0 & E1)|[E0 E1]]; rewrite E0, E1; [|split; reflexivity].
    apply nth_error_In in E0, E1. rewrite Forall_forall in H0, H1.
    destruct (H0 i0 E0) as [L0 _], (H1 i1 E1) as [L1 _].
    rewrite HK0 in L0. rewrite HK1 in L1.
    destruct i0 as [|c0 [|? ?]]; try discriminate.
    destruct i1 as [|c1 [|? ?]]; try discriminate.
    split; reflexivity.
Qed.

End StereoPipeline.

(** X16.  Around a backend that returns no scale, [decode] after [encode]
    is the backend's own [decode] after [encode] on each channel: when the
    backend encodes the two channels into codes of one shape, with as many
    codebooks as it reports, and decodes them into two mono frames of one
    size, the wrapper returns a frame with two channels, the first decoded
    from the left channel's codes and the second from the right's. *)
Theorem stereo_decode_after_encode {R M : Type} `{CompressionModel.API R (Tensor2 R) M}
    (self : InterleaveStereoCompressionModel.t M) (x : Tensor3 R)
    (l r : Tensor3 Z) (a0 a1 : Tensor3 R) :
  let m := InterleaveStereoCompressionModel.model self in
  dimK x = 2%nat ->
  CompressionModel.encode m (select_channel x 0) = Ok (l, None) ->
  CompressionModel.encode m (select_channel x 1) = Ok (r, None) ->
  wf3 l -> wf3 r -> shape3 l = shape3 r ->
  Z.of_nat (dimK l) = CompressionModel.num_codebooks m ->
  CompressionModel.decode m l None = Ok a0 ->
  CompressionModel.decode m r None = Ok a1 ->
  wf3 a0 -> wf3 a1 -> dimK a0 = 1%nat -> dimK a1 = 1%nat ->
  dimB a0 = dimB a1 -> dimT a0 = dimT a1 ->
  exists codes audio,
    InterleaveStereoCompressionModel.encode self x = Ok (codes, None)
    /\ InterleaveStereoCompressionModel.decode self codes None = Ok audio
    /\ shape3 audio = (dimB a0, 2%nat, dimT a0)
    /\ forall b, row_at audio b 0 = row_at a0 b 0
                 /\ row_at audio b 1 = row_at a1 b 0.
Proof.
  intros m HC E0 E1 Hl Hr Es HK D0 D1 W0 W1 K0 K1 HB HT.
  rewrite (encode_unfold self x l r None None HC E0 E1 Es). cbn [bind].
  destruct (cat_pair_mono a0 a1 W0 W1 K0 K1 HB HT) as (audio & Ecat & Hs & Hrows).
  eexists. exists audio. split; [reflexivity|]. split; [|split; assumption].
  rewrite (decode_after_interleave self l r Hl Hr Es HK).
  fold m. rewrite D0, D1. cbn [bind]. exact Ecat.
Qed.

Lemma stereo_decode_after_encode_witness :
  exists codes audio,
    InterleaveStereoCompressionModel.encode Examples.stereo_timesteps
      Examples.stereo_frame = Ok (codes, None)
    /\ InterleaveStereoCompressionModel.decode Examples.stereo_timesteps codes None
       = Ok audio
    /\ shape3 audio = (1, 2, 3)%nat
    /\ forall b, row_at audio b 0 = row_at (mkT3 1 1 3 [[[1; 2; 3]]]) b 0
                 /\ row_at audio b 1 = row_at (mkT3 1 1 3 [[[4; 5; 6]]]) b 0.
Proof.
  refine (stereo_decode_after_encode Examples.stereo_timesteps Examples.stereo_frame
            (mkT3 1 3 3 [[[1; 2; 3]; [2; 3; 4]; [3; 4; 5]]])
            (mkT3 1 3 3 [[[4; 5; 6]; [5; 6; 7]; [6; 7; 8]]])
            (mkT3 1 1 3 [[[1; 2; 3]]]) (mkT3 1 1 3 [[[4; 5; 6]]])
            _ _ _ _ _ _ _ _ _ _ _ _ _ _ _);
    try reflexivity; repeat constructor.
Defined.

(** X17.  On codes of a single batch item, [decode] fails on every
    present scale: either the scale has not the shape [[1, 2, ...]] and the
    assertion on its shape fails, or [scale[1, ...]], read along the batch
    axis, is out of range. *)
Theorem stereo_decode_single_item_scale {R M : Type}
    `{CompressionModel.API R (Tensor2 R) M}
    (self : InterleaveStereoCompressionModel.t M) (codes : Tensor3 Z)
    (scale : Tensor3 R) :
  dimB codes = 1%nat ->
  raises (InterleaveStereoCompressionModel.decode self codes (Some scale))
  /\ (Z.of_nat (dimT codes)
        mod InterleaveStereoCompressionModel.num_virtual_steps self = 0 ->
      Z.of_nat (dimK codes) = InterleaveStereoCompressionModel.num_codebooks self ->
      dimB scale = 1%nat -> dimK scale = 2%nat ->
      InterleaveStereoCompressionModel.decode self codes (Some scale)
      = Err (IndexError "index out of range")).
Proof.
  intro HB.
  assert (Hidx : dimB scale = 1%nat -> dimK scale = 2%nat ->
                 InterleaveStereoCompressionModel.decode_channels self codes (Some scale)
                 = Err (IndexError "index out of range")).
  { intros Hb Hk. unfold InterleaveStereoCompressionModel.decode_channels.
    rewrite HB, Hb, Hk. cbn [Nat.eqb andb assert bind].
    unfold select_first. rewrite Hb. reflexivity. }
  split.
  - unfold InterleaveStereoCompressionModel.decode.
    destruct (_ =? 0); cbn [assert bind]; [|eexists; reflexivity].
    destruct (_ =? _); cbn [assert bind]; [|eexists; reflexivity].
    destruct (Nat.eq_dec (dimB scale) 1) as [Hb|Hb];
      [destruct (Nat.eq_dec (dimK scale) 2) as [Hk|Hk]|].
    + rewrite (Hidx Hb Hk). eexists; reflexivity.
    + unfold InterleaveStereoCompressionModel.decode_channels.
      apply Nat.eqb_neq in Hk. rewrite Hk, andb_false_r. eexists; reflexivity.
    + unfold InterleaveStereoCompressionModel.decode_channels.
      rewrite HB. apply Nat.eqb_neq in Hb. rewrite Hb. eexists; reflexivity.
  - intros HT HK Hb Hk. unfold InterleaveStereoCompressionModel.decode.
    apply Z.eqb_eq in HT. apply Z.eqb_eq in HK. rewrite HT, HK.
    cbn [assert bind]. apply Hidx; assumption.
Qed.

Lemma stereo_decode_single_item_scale_witness :
  InterleaveStereoCompressionModel.decode Examples.stereo_renormalized
    (mkT3 1 6 3 [[[0; 0; 0]; [0; 0; 0]; [1; 1; 1]; [1; 1; 1]; [2; 2; 2]; [2; 2; 2]]])
    (Some (mkT3 1 2 1 [[[4]; [7]]]))
  = Err (IndexError "index out of range").
Proof.
  apply (stereo_decode_single_item_scale Examples.stereo_renormalized
           (mkT3 1 6 3 [[[0; 0; 0]; [0; 0; 0]; [1; 1; 1]; [1; 1; 1];
                         [2; 2; 2]; [2; 2; 2]]])
           (mkT3 1 2 1 [[[4]; [7]]])); reflexivity.
Defined.

(** X18.  A wrapper interleaving codebooks reports twice the active count
    of its backend but the backend's own total: around a fresh DAC with at
    least one codebook the reported [num_codebooks] exceeds the reported
    [total_codebooks], and giving the reported count back to
    [set_num_codebooks] is rejected. *)
Theorem stereo_count_exceeds_total {R : Type} (model : DacModel R) :
  let self := InterleaveStereoCompressionModel.mk (DAC.init model) false in
  InterleaveStereoCompressionModel.num_codebooks self = 2 * dac_n_codebooks model
  /\ InterleaveStereoCompressionModel.total_codebooks self = dac_n_codebooks model
  /\ (1 <= dac_n_codebooks model ->
      InterleaveStereoCompressionModel.total_codebooks self
      < InterleaveStereoCompressionModel.num_codebooks self
      /\ InterleaveStereoCompressionModel.set_num_codebooks self
           (InterleaveStereoCompressionModel.num_codebooks self)
         = Err (AssertionError "")).
Proof.
  intro self.
  assert (Hn : InterleaveStereoCompressionModel.num_codebooks self
               = 2 * dac_n_codebooks model).
  { unfold self, InterleaveStereoCompressionModel.num_codebooks.
    cbn [InterleaveStereoCompressionModel.per_timestep
           InterleaveStereoCompressionModel.model
           CompressionModel.num_codebooks DAC.compression_model].
    unfold DAC.num_codebooks, DAC.init. cbn [DAC.n_quantizers]. lia. }
  split; [exact Hn|]. split; [reflexivity|]. intro Htotal.
  split.
  - rewrite Hn. unfold self, InterleaveStereoCompressionModel.total_codebooks.
    cbn [InterleaveStereoCompressionModel.model CompressionModel.total_codebooks
           DAC.compression_model].
    unfold DAC.total_codebooks, DAC.init. cbn [DAC.model]. lia.
  - rewrite Hn. unfold self, InterleaveStereoCompressionModel.set_num_codebooks.
    cbn [InterleaveStereoCompressionModel.model CompressionModel.set_num_codebooks
           DAC.compression_model].
    destruct (dac_set_num_codebooks (DAC.init model) (2 * dac_n_codebooks model))
      as (_ & _ & Hrej).
    rewrite Hrej; [reflexivity|].
    unfold DAC.total_codebooks, DAC.init. cbn [DAC.model]. lia.
Qed.

Lemma stereo_count_exceeds_total_witness :
  let model := mkDacModel 44100 512 1024 9
                 (fun (x : Tensor3 Z) n => Err (RuntimeError ""))
                 (fun _ => Err (RuntimeError ""))
                 (fun _ => Err (RuntimeError "")) in
  let self := InterleaveStereoCompressionModel.mk (DAC.init model) false in
  1 <= dac_n_codebooks model
  /\ InterleaveStereoCompressionModel.total_codebooks self
     < InterleaveStereoCompressionModel.num_codebooks self.
Proof.
  intros model self. split; [cbn; lia|].
  apply (stereo_count_exceeds_total model). cbn; lia.
Defined.
